(** * The partner alarm clock: settlement, penalties and readiness

    A shallow embedding of [PartnerAlarmClock] (the Solidity commitment
    contract of the social alarm clock) and of the client-side readiness
    predicate [isReady], with the properties of the settlement arithmetic,
    the lifecycle guards and the order of effects in [withdraw].

    Conventions.
    - A [uint] is a [Z] in [0, MAX_UINT]; the contract is compiled with
      [pragma solidity ^0.8.9], so [+], [-] and [*] on [uint] are checked
      and revert with [Panic(0x11)] when the result leaves that range.
    - A call either returns or reverts ([Outcome]); a reverted call leaves
      no trace in storage, so the caller keeps the state it started from.
    - The [AlarmSchedule] library and [BaseCommitment] are not part of the
      sources at hand.  The contract is therefore embedded over an abstract
      library interface ([AlarmScheduleLib]); an instance following the
      written specification is given in [SpecSchedule]. *)

From Stdlib Require Import ZArith List String Bool Lia QArith.
From stdpp Require Import base option gmap.
Import ListNotations.

Close Scope Q_scope.
Open Scope Z_scope.

(** ** Machine integers and call outcomes *)

Definition address := Z.

Definition MAX_UINT : Z := 2 ^ 256 - 1.

Inductive Failure : Type :=
| RequireFailed (reason : string)   (* require(cond, reason) *)
| Panic (code : Z)                  (* 0x11: arithmetic overflow or underflow *)
| NonPayable                        (* value sent to a function that is not payable *)
| CallFailed.                       (* a transfer or external call did not go through *)

Inductive Outcome (A : Type) : Type :=
| Return (a : A)
| Revert (f : Failure).

Arguments Return {A} a.
Arguments Revert {A} f.

Definition PANIC_ARITHMETIC : Z := 17.

Definition checked_add (a b : Z) : Outcome Z :=
  if a + b <=? MAX_UINT then Return (a + b) else Revert (Panic PANIC_ARITHMETIC).

Definition checked_sub (a b : Z) : Outcome Z :=
  if b <=? a then Return (a - b) else Revert (Panic PANIC_ARITHMETIC).

Definition checked_mul (a b : Z) : Outcome Z :=
  if a * b <=? MAX_UINT then Return (a * b) else Revert (Panic PANIC_ARITHMETIC).

Definition outcome_bind {A B} (o : Outcome A) (k : A -> Outcome B) : Outcome B :=
  match o with
  | Return a => k a
  | Revert f => Revert f
  end.

Notation "'let?' x ':=' o 'in' k" := (outcome_bind o (fun x => k))
  (at level 10, x name, o at level 100, k at level 200).

(** ** The call environment *)

Record Env : Type := {
  msg_sender : address;
  msg_value : Z;
  tx_origin : address;
  block_timestamp : Z;
  (* whether a plain transfer to this address is accepted by its receiver *)
  accepts_transfer : address -> bool;
  (* whether the deployment hub's emitUserJoined goes through *)
  hub_responds : bool
}.

(** Modelled from the spec: the enum [CommitmentStatus] is declared in
    BaseCommitment.sol, which is not among the sources.  The spec gives the
    lifecycle three statuses, INACTIVE, ACTIVE and a terminal one it calls
    SETTLED; the contract writes the terminal one as
    [CommitmentStatus.CANCELLED], the name kept here. *)
Inductive CommitmentStatus : Type := INACTIVE | ACTIVE | CANCELLED.

Definition status_eqb (a b : CommitmentStatus) : bool :=
  match a, b with
  | INACTIVE, INACTIVE | ACTIVE, ACTIVE | CANCELLED, CANCELLED => true
  | _, _ => false
  end.

(** ** The schedule library, as the contract uses it

    [using AlarmSchedule for AlarmSchedule.Schedule]: the contract calls
    [init], [start], [recordEntry], [missedDeadlines] and [entries].  The
    functions that read [block.timestamp] take it as their first argument. *)
Class AlarmScheduleLib : Type := {
  Schedule : Type;
  (* the zero-initialised struct a fresh mapping slot holds *)
  Schedule_zero : Schedule;
  AlarmSchedule_init : Z -> list Z -> Z -> Z -> Outcome Schedule;
  AlarmSchedule_start : Z -> Schedule -> Outcome Schedule;
  AlarmSchedule_recordEntry : Z -> Schedule -> Outcome Schedule;
  AlarmSchedule_missedDeadlines : Z -> Schedule -> Outcome Z;
  AlarmSchedule_entries : Schedule -> Outcome Z
}.

Section PartnerAlarmClock.

Context `{Lib : AlarmScheduleLib}.

(** ** Storage *)

Record Player : Type := {
  schedule : Schedule;
  depositAmount : Z
}.

Record Storage : Type := {
  status : CommitmentStatus;
  name : string;
  deploymentHub : address;
  players : gmap address Player;
  alarmTime : Z;
  alarmActiveDays : list Z;
  submissionWindow : Z;
  timezoneOffset : Z;
  betAmount : Z;
  player1 : address;
  player2 : address;
  missedAlarmPenalty : Z
}.

Definition IMPLEMENTATION_NAME : string := "Partner Alarm Clock".

Definition Player_zero : Player :=
  {| schedule := Schedule_zero; depositAmount := 0 |}.

(** [players[a]]: a Solidity mapping is total, absent keys read as zero. *)
Definition player_at (s : Storage) (a : address) : Player :=
  default Player_zero (players s !! a).

Definition set_status (v : CommitmentStatus) (s : Storage) : Storage :=
  {| status := v; name := name s; deploymentHub := deploymentHub s;
     players := players s; alarmTime := alarmTime s;
     alarmActiveDays := alarmActiveDays s;
     submissionWindow := submissionWindow s;
     timezoneOffset := timezoneOffset s; betAmount := betAmount s;
     player1 := player1 s; player2 := player2 s;
     missedAlarmPenalty := missedAlarmPenalty s |}.

Definition set_players (m : gmap address Player) (s : Storage) : Storage :=
  {| status := status s; name := name s; deploymentHub := deploymentHub s;
     players := m; alarmTime := alarmTime s;
     alarmActiveDays := alarmActiveDays s;
     submissionWindow := submissionWindow s;
     timezoneOffset := timezoneOffset s; betAmount := betAmount s;
     player1 := player1 s; player2 := player2 s;
     missedAlarmPenalty := missedAlarmPenalty s |}.

(** [players[a].depositAmount = v] *)
Definition set_depositAmount (a : address) (v : Z) (s : Storage) : Storage :=
  set_players
    (<[a := {| schedule := schedule (player_at s a); depositAmount := v |}]>
       (players s)) s.

(** [players[a].schedule = sch] *)
Definition set_schedule (a : address) (sch : Schedule) (s : Storage) : Storage :=
  set_players
    (<[a := {| schedule := sch; depositAmount := depositAmount (player_at s a) |}]>
       (players s)) s.

(** ** Effects of a call

    Every interaction with the outside records the storage as it stands at
    the moment of the call: this is what the callee, or anything it calls
    back into, can observe. *)

Inductive Event : Type :=
| CommitmentInitialized (description : string)
| ConfirmationSubmitted (from : address)
| StatusChanged (from to : CommitmentStatus).

Inductive Effect : Type :=
| Transfer (to : address) (amount : Z) (seen : Storage)
| HubUserJoined (user : address) (seen : Storage)
| Emit (e : Event).

Record World : Type := {
  storage : Storage;
  this_balance : Z     (* address(this).balance *)
}.

Record Exec : Type := {
  world : World;
  effects : list Effect
}.

Definition M (A : Type) : Type := Exec -> Outcome (A * Exec).

Definition ret {A} (a : A) : M A := fun x => Return (a, x).

Definition bind {A B} (m : M A) (k : A -> M B) : M B :=
  fun x => match m x with
           | Return (a, x') => k a x'
           | Revert f => Revert f
           end.

Notation "'let*' x ':=' m 'in' k" := (bind m (fun x => k))
  (at level 10, x name, m at level 100, k at level 200).

Definition lift {A} (o : Outcome A) : M A :=
  fun x => match o with
           | Return a => Return (a, x)
           | Revert f => Revert f
           end.

Definition require (cond : bool) (reason : string) : M unit :=
  if cond then ret tt else lift (Revert (RequireFailed reason)).

Definition sload {A} (f : Storage -> A) : M A :=
  fun x => Return (f (storage (world x)), x).

Definition sstore (f : Storage -> Storage) : M unit :=
  fun x => Return (tt, {| world := {| storage := f (storage (world x));
                                      this_balance := this_balance (world x) |};
                          effects := effects x |}).

Definition selfbalance : M Z :=
  fun x => Return (this_balance (world x), x).

Definition emit (e : Event) : M unit :=
  fun x => Return (tt, {| world := world x; effects := effects x ++ [Emit e] |}).

(** [payable(to).transfer(amount)] *)
Definition transfer (env : Env) (to : address) (amount : Z) : M unit :=
  fun x =>
    if (amount <=? this_balance (world x)) && accepts_transfer env to then
      Return (tt, {| world := {| storage := storage (world x);
                                 this_balance := this_balance (world x) - amount |};
                     effects := effects x ++ [Transfer to amount (storage (world x))] |})
    else Revert CallFailed.

(** [deploymentHub.emitUserJoined(RegisteredAlarmType.PARTNER_ALARM_CLOCK, user)] *)
Definition hub_emitUserJoined (env : Env) (user : address) : M unit :=
  fun x =>
    if hub_responds env then
      Return (tt, {| world := world x;
                     effects := effects x ++ [HubUserJoined user (storage (world x))] |})
    else Revert CallFailed.

(** A payable function is entered with [msg.value] already credited. *)
Definition payable (env : Env) : M unit :=
  fun x => Return (tt, {| world := {| storage := storage (world x);
                                      this_balance := this_balance (world x) + msg_value env |};
                          effects := effects x |}).

Definition nonpayable (env : Env) : M unit :=
  if msg_value env =? 0 then ret tt else lift (Revert NonPayable).

(** One external call into the contract: the effects of the call, and the
    world it leaves when it returns. *)
Definition run (m : M unit) (w : World) : Outcome (World * list Effect) :=
  match m {| world := w; effects := [] |} with
  | Return (_, x) => Return (world x, effects x)
  | Revert f => Revert f
  end.

(** A reverted call changes nothing. *)
Definition after (m : M unit) (w : World) : World :=
  match run m w with
  | Return (w', _) => w'
  | Revert _ => w
  end.

(** ** The contract *)

(** The tuple [abi.decode(data, (uint, uint8[], uint, uint, int, address))]
    yields in [init]. *)
Record InitData : Type := {
  data_alarmTime : Z;
  data_alarmActiveDays : list Z;
  data_missedAlarmPenalty : Z;
  data_submissionWindow : Z;
  data_timezoneOffset : Z;
  data_player2 : address
}.

(** Storage of a clone before [init] runs: every slot zero.  [init] writes
    the status slot before anything reads it. *)
Definition Storage_zero : Storage :=
  {| status := INACTIVE; name := ""; deploymentHub := 0; players := ∅;
     alarmTime := 0; alarmActiveDays := []; submissionWindow := 0;
     timezoneOffset := 0; betAmount := 0; player1 := 0; player2 := 0;
     missedAlarmPenalty := 0 |}.

(** [init], as the hub runs it on a clone it has just created.  The
    [initializer] modifier, which refuses a second [init], is declared with
    BaseCommitment and is not embedded: [init] is run only through [deploy]. *)
Definition init (env : Env) (data : InitData) : M unit :=
  let* _ := payable env in
  let* _ := require (msg_value env >? 0) "BET_VALUE_REQUIRED" in
  let* _ := sstore (fun s =>
    {| status := INACTIVE; name := IMPLEMENTATION_NAME;
       deploymentHub := msg_sender env; players := players s;
       alarmTime := data_alarmTime data;
       alarmActiveDays := data_alarmActiveDays data;
       submissionWindow := data_submissionWindow data;
       timezoneOffset := data_timezoneOffset data;
       betAmount := msg_value env; player1 := tx_origin env;
       player2 := data_player2 data;
       missedAlarmPenalty := data_missedAlarmPenalty data |}) in
  let* p1 := sload player1 in
  let* _ := sstore (set_depositAmount p1 (msg_value env)) in
  let* sch1 := lift (AlarmSchedule_init (data_alarmTime data)
                       (data_alarmActiveDays data) (data_submissionWindow data)
                       (data_timezoneOffset data)) in
  let* _ := sstore (set_schedule p1 sch1) in
  let* p2 := sload player2 in
  let* sch2 := lift (AlarmSchedule_init (data_alarmTime data)
                       (data_alarmActiveDays data) (data_submissionWindow data)
                       (data_timezoneOffset data)) in
  sstore (set_schedule p2 sch2).

Definition onlyPlayer (env : Env) : M unit :=
  let* p1 := sload player1 in
  let* p2 := sload player2 in
  require ((msg_sender env =? p1) || (msg_sender env =? p2)) "ONLY_PLAYER_ACTION".

(** [players[a].schedule.start()] *)
Definition start_schedule (env : Env) (a : address) : M unit :=
  let* sch := sload (fun s => schedule (player_at s a)) in
  let* sch' := lift (AlarmSchedule_start (block_timestamp env) sch) in
  sstore (set_schedule a sch').

Definition start (env : Env) : M unit :=
  let* _ := payable env in
  let* st := sload status in
  let* _ := require (status_eqb st INACTIVE) "ALREADY_STARTED" in
  let* bet := sload betAmount in
  let* _ := require (msg_value env >=? bet) "INSUFFICIENT_FUNDS_SENT" in
  let* p2 := sload player2 in
  let* _ := require (msg_sender env =? p2) "ONLY_PLAYER_2_CAN_START" in
  let* p1 := sload player1 in
  let* _ := start_schedule env p1 in
  let* _ := start_schedule env p2 in
  let* dep := sload (fun s => depositAmount (player_at s p2)) in
  let* dep' := lift (checked_add dep (msg_value env)) in
  let* _ := sstore (set_depositAmount p2 dep') in
  let* _ := hub_emitUserJoined env p2 in
  let* _ := sstore (set_status ACTIVE) in
  emit (CommitmentInitialized "Alarm Bet Started").

Definition addToBalance (env : Env) (player : address) : M unit :=
  let* _ := payable env in
  let* _ := onlyPlayer env in
  let* st := sload status in
  let* _ := require (status_eqb st ACTIVE) "NOT_ACTIVE" in
  let* p1 := sload player1 in
  let* p2 := sload player2 in
  let* _ := require ((player =? p1) || (player =? p2)) "INVALID_PLAYER" in
  let* dep := sload (fun s => depositAmount (player_at s (msg_sender env))) in
  let* dep' := lift (checked_add dep (msg_value env)) in
  sstore (set_depositAmount (msg_sender env) dep').

Definition submitConfirmation (env : Env) : M unit :=
  let* _ := nonpayable env in
  let* _ := onlyPlayer env in
  let* sch := sload (fun s => schedule (player_at s (msg_sender env))) in
  let* sch' := lift (AlarmSchedule_recordEntry (block_timestamp env) sch) in
  let* _ := sstore (set_schedule (msg_sender env) sch') in
  emit (ConfirmationSubmitted (msg_sender env)).

Definition missedDeadlines (env : Env) (s : Storage) (player : address) : Outcome Z :=
  AlarmSchedule_missedDeadlines (block_timestamp env) (schedule (player_at s player)).

Definition numConfirmations (s : Storage) (player : address) : Outcome Z :=
  AlarmSchedule_entries (schedule (player_at s player)).

Definition getPenaltyAmount (env : Env) (s : Storage) (player : address) : Outcome Z :=
  let? numMissedDeadlines :=
    AlarmSchedule_missedDeadlines (block_timestamp env) (schedule (player_at s player)) in
  let? penaltyVal := checked_mul numMissedDeadlines (missedAlarmPenalty s) in
  if penaltyVal >? depositAmount (player_at s player)
  then Return (depositAmount (player_at s player))
  else Return penaltyVal.

Definition getPlayerBalance (env : Env) (s : Storage) (player : address) : Outcome Z :=
  let? penalty := getPenaltyAmount env s player in
  checked_sub (depositAmount (player_at s player)) penalty.

(** A view function called from within a transaction. *)
Definition view {A} (f : Storage -> Outcome A) : M A :=
  fun x => match f (storage (world x)) with
           | Return a => Return (a, x)
           | Revert e => Revert e
           end.

Definition withdraw (env : Env) : M unit :=
  let* _ := nonpayable env in
  let* _ := onlyPlayer env in
  let* p1 := sload player1 in
  let* p2 := sload player2 in
  let otherPlayer := if msg_sender env =? p1 then p2 else p1 in
  let* st := sload status in
  let* penalties :=
    (if status_eqb st ACTIVE then
       let* senderPenalty := view (fun s => getPenaltyAmount env s (msg_sender env)) in
       let* otherPlayerPenalty := view (fun s => getPenaltyAmount env s otherPlayer) in
       ret (senderPenalty, otherPlayerPenalty)
     else ret (0, 0)) in
  let* otherDeposit := sload (fun s => depositAmount (player_at s otherPlayer)) in
  let* sum := lift (checked_add otherDeposit (fst penalties)) in
  let* otherPlayerWithdrawAmount := lift (checked_sub sum (snd penalties)) in
  let* _ := sstore (set_depositAmount (msg_sender env) 0) in
  let* _ := sstore (set_depositAmount otherPlayer 0) in
  let* _ := transfer env otherPlayer otherPlayerWithdrawAmount in
  let* rest := selfbalance in
  let* _ := transfer env (msg_sender env) rest in
  let* old := sload status in
  let* _ := emit (StatusChanged old CANCELLED) in
  sstore (set_status CANCELLED).

(** Deployment: the hub clones the contract and calls [init] on the fresh
    clone, forwarding the initiator's stake. *)
Definition deploy (env : Env) (data : InitData) : Outcome (World * list Effect) :=
  run (init env data) {| storage := Storage_zero; this_balance := 0 |}.

(** ** Vocabulary of the statements *)

(** [otherPlayer] of [withdraw]. *)
Definition other_player (env : Env) (s : Storage) : address :=
  if msg_sender env =? player1 s then player2 s else player1 s.

Definition is_player (s : Storage) (a : address) : Prop :=
  a = player1 s \/ a = player2 s.

(** The pair [(senderPenalty, otherPlayerPenalty)] that [withdraw] applies. *)
Definition applied_penalties (env : Env) (s : Storage) : Outcome (Z * Z) :=
  if status_eqb (status s) ACTIVE then
    let? senderPenalty := getPenaltyAmount env s (msg_sender env) in
    let? otherPlayerPenalty := getPenaltyAmount env s (other_player env s) in
    Return (senderPenalty, otherPlayerPenalty)
  else Return (0, 0).

(** Total value a call transferred to an address. *)
Fixpoint paid_to (a : address) (es : list Effect) : Z :=
  match es with
  | [] => 0
  | Transfer to amount _ :: es' => (if to =? a then amount else 0) + paid_to a es'
  | _ :: es' => paid_to a es'
  end.

Definition deposit_of (w : World) (a : address) : Z :=
  depositAmount (player_at (storage w) a).

(** The contract holds exactly the two players' recorded stakes. *)
Definition funded (w : World) : Prop :=
  player1 (storage w) <> player2 (storage w) /\
  this_balance w =
    deposit_of w (player1 (storage w)) + deposit_of w (player2 (storage w)).

(** Whether a call returned, and what it left and did if so. *)
Definition returns {A} (o : Outcome A) : bool :=
  match o with
  | Return _ => true
  | Revert _ => false
  end.

Definition failure_of {A} (o : Outcome A) : option Failure :=
  match o with
  | Return _ => None
  | Revert f => Some f
  end.

Definition value_or {A} (d : A) (o : Outcome A) : A :=
  match o with
  | Return a => a
  | Revert _ => d
  end.

Definition result_of (o : Outcome (World * list Effect)) : World * list Effect :=
  match o with
  | Return r => r
  | Revert _ => ({| storage := Storage_zero; this_balance := 0 |}, [])
  end.

(** The transfers of a call, each with an observation [f] of the storage as
    it stood when the transfer was made. *)
Fixpoint seen_at_transfers {A} (f : Storage -> A) (es : list Effect)
  : list (address * Z * A) :=
  match es with
  | [] => []
  | Transfer to amount seen :: es' => (to, amount, f seen) :: seen_at_transfers f es'
  | _ :: es' => seen_at_transfers f es'
  end.


(** The worlds a commitment between two distinct players goes through:
    deployed by the hub on a fresh clone, then driven by calls that return. *)
Inductive reachable : World -> Prop :=
| reach_deploy env data w es :
    tx_origin env <> data_player2 data ->
    deploy env data = Return (w, es) ->
    reachable w
| reach_start env w w' es :
    reachable w -> run (start env) w = Return (w', es) -> reachable w'
| reach_addToBalance env player w w' es :
    reachable w -> run (addToBalance env player) w = Return (w', es) -> reachable w'
| reach_submitConfirmation env w w' es :
    reachable w -> run (submitConfirmation env) w = Return (w', es) -> reachable w'
| reach_withdraw env w w' es :
    reachable w -> run (withdraw env) w = Return (w', es) -> reachable w'.

End PartnerAlarmClock.

(** ** The external interface, call by call *)

Section Interface.

Context `{Lib : AlarmScheduleLib}.

(** [alarmDays()] *)
Definition alarmDays (s : Storage) : list Z := alarmActiveDays s.

(** The state-changing functions a deployed commitment offers. *)
Inductive Entry : Type :=
| Start
| AddToBalance (player : address)
| SubmitConfirmation
| Withdraw.

Definition enter (c : Entry) (env : Env) : M unit :=
  match c with
  | Start => start env
  | AddToBalance player => addToBalance env player
  | SubmitConfirmation => submitConfirmation env
  | Withdraw => withdraw env
  end.

(** Total value a call transferred, to whomever. *)
Fixpoint total_transferred (es : list Effect) : Z :=
  match es with
  | [] => 0
  | Transfer _ amount _ :: es' => amount + total_transferred es'
  | _ :: es' => total_transferred es'
  end.

(** The lifecycle, in order. *)
Definition status_rank (st : CommitmentStatus) : Z :=
  match st with
  | INACTIVE => 0
  | ACTIVE => 1
  | CANCELLED => 2
  end.

(** The terms fixed by [init]. *)
Definition same_terms (s s' : Storage) : Prop :=
  name s' = name s /\ deploymentHub s' = deploymentHub s /\
  alarmTime s' = alarmTime s /\ alarmDays s' = alarmDays s /\
  submissionWindow s' = submissionWindow s /\
  timezoneOffset s' = timezoneOffset s /\ betAmount s' = betAmount s /\
  player1 s' = player1 s /\ player2 s' = player2 s /\
  missedAlarmPenalty s' = missedAlarmPenalty s.

End Interface.

(** ** The schedule tracker, from the written specification *)

Module SpecSchedule.

Definition SECONDS_PER_DAY : Z := 86400.

(** Modelled from the spec: the AlarmSchedule library (library/AlarmSchedule.sol)
    is not among the sources.  WeeklyPattern of section 3: seconds since local
    midnight, a set of weekday labels (1 = Monday .. 7 = Sunday), the length
    of the submission window and the signed timezone offset, in seconds. *)
Record WeeklyPattern : Type := {
  timeOfDay : Z;
  activeDays : gset Z;
  submissionWindow : Z;
  timezoneOffset : Z
}.

(** Modelled from the spec: the per-participant AlarmSchedule of section 3,
    absent from the sources: the shared pattern, the start time ([None]
    before activation) and the set of confirmed occurrence indices. *)
Record AlarmSchedule : Type := {
  pattern : WeeklyPattern;
  startTime : option Z;
  confirmedOccurrences : gset Z
}.

(** Modelled from the spec: ScheduleClock (section 4.1), absent from the
    sources.  A calendar day is its number of days since the epoch, which
    also serves as the occurrence index: it is unique per occurrence and
    grows with calendar time.  Day 0 was a Thursday. *)
Definition absoluteMidnight (day : Z) : Z := day * SECONDS_PER_DAY.

Definition weekday (day : Z) : Z := (day + 3) mod 7 + 1.

(** Modelled from the spec: [close = absoluteMidnight(day) + timeOfDay −
    timezoneOffset] and [open = close − submissionWindow] (section 4.1). *)
Definition occurrenceClose (p : WeeklyPattern) (day : Z) : Z :=
  absoluteMidnight day + timeOfDay p - timezoneOffset p.

Definition occurrenceOpen (p : WeeklyPattern) (day : Z) : Z :=
  occurrenceClose p day - submissionWindow p.

Definition isActiveDay (p : WeeklyPattern) (day : Z) : bool :=
  bool_decide (weekday day ∈ activeDays p).

(** The first day whose occurrence closes at or after the instant [t]. *)
Definition firstDayClosingFrom (p : WeeklyPattern) (t : Z) : Z :=
  - ((- (t - timeOfDay p + timezoneOffset p)) / SECONDS_PER_DAY).

(** Modelled from the spec: [occurrencesSince] (section 4.1), absent from the
    sources, restricted to the elapsed occurrences [missedCount] counts: one
    index per active weekday whose window closes at or after [start] and
    strictly before [now], in ascending order. *)
Definition occurrencesSince (p : WeeklyPattern) (start now : Z) : list Z :=
  let d0 := firstDayClosingFrom p start in
  let d1 := firstDayClosingFrom p now in
  List.filter (isActiveDay p) (seqZ d0 (d1 - d0)).

(** Modelled from the spec: the occurrence whose window contains [at]
    ([open ≤ at ≤ close]), if one is open (section 4.2); absent from the
    sources.  Before [start] there are no occurrences. *)
Definition openOccurrence (s : AlarmSchedule) (at_ : Z) : option Z :=
  match startTime s with
  | None => None
  | Some t0 =>
      let d := firstDayClosingFrom (pattern s) at_ in
      if isActiveDay (pattern s) d
         && (occurrenceOpen (pattern s) d <=? at_)
         && (t0 <=? occurrenceClose (pattern s) d)
      then Some d else None
  end.

(** Modelled from the spec: creation of a schedule from the inbound
    parameters, absent from the sources.  The core re-validates the pattern
    (section 6) against the ranges of section 3; the spec names no error
    kind for a rejected pattern. *)
Definition init (alarmTime : Z) (alarmDays : list Z) (window offset : Z)
  : Outcome AlarmSchedule :=
  if (0 <=? alarmTime) && (alarmTime <? SECONDS_PER_DAY)
     && negb (Nat.eqb (List.length alarmDays) 0)
     && forallb (fun d => (1 <=? d) && (d <=? 7)) alarmDays
     && (0 <? window)
     && (- (12 * 3600) <=? offset) && (offset <=? 12 * 3600)
  then Return {| pattern := {| timeOfDay := alarmTime;
                               activeDays := list_to_set alarmDays;
                               submissionWindow := window;
                               timezoneOffset := offset |};
                 startTime := None;
                 confirmedOccurrences := ∅ |}
  else Revert (RequireFailed "InvalidPattern").

(** Modelled from the spec: [start(at)] sets [startTime = at] and fails with
    AlreadyStarted if it is already set (section 4.2); absent from the sources. *)
Definition start (at_ : Z) (s : AlarmSchedule) : Outcome AlarmSchedule :=
  match startTime s with
  | Some _ => Revert (RequireFailed "AlreadyStarted")
  | None => Return {| pattern := pattern s; startTime := Some at_;
                      confirmedOccurrences := confirmedOccurrences s |}
  end.

(** Modelled from the spec: [recordConfirmation(at)] inserts the index of the
    occurrence whose window is open at [at] into [confirmedOccurrences], and
    fails with NoOpenWindow outside any open window (section 4.2); absent from
    the sources. *)
Definition recordConfirmation (at_ : Z) (s : AlarmSchedule) : Outcome AlarmSchedule :=
  match openOccurrence s at_ with
  | None => Revert (RequireFailed "NoOpenWindow")
  | Some k => Return {| pattern := pattern s; startTime := startTime s;
                        confirmedOccurrences := {[ k ]} ∪ confirmedOccurrences s |}
  end.

(** Modelled from the spec: [confirmedCount()] is the size of
    [confirmedOccurrences] (section 4.2); absent from the sources. *)
Definition confirmedCount (s : AlarmSchedule) : Z :=
  Z.of_nat (size (confirmedOccurrences s)).

(** Modelled from the spec: [missedCount(now)], the elapsed occurrences since
    [startTime] without a confirmed index (section 4.2); absent from the
    sources. *)
Definition missedCount (now : Z) (s : AlarmSchedule) : Z :=
  match startTime s with
  | None => 0
  | Some t0 =>
      Z.of_nat (List.length
        (List.filter (fun k => negb (bool_decide (k ∈ confirmedOccurrences s)))
           (occurrencesSince (pattern s) t0 now)))
  end.

Definition zero : AlarmSchedule :=
  {| pattern := {| timeOfDay := 0; activeDays := ∅; submissionWindow := 0;
                   timezoneOffset := 0 |};
     startTime := None; confirmedOccurrences := ∅ |}.

#[global] Instance lib : AlarmScheduleLib := {|
  Schedule := AlarmSchedule;
  Schedule_zero := zero;
  AlarmSchedule_init := init;
  AlarmSchedule_start := start;
  AlarmSchedule_recordEntry := recordConfirmation;
  AlarmSchedule_missedDeadlines := fun now s => Return (missedCount now s);
  AlarmSchedule_entries := fun s => Return (confirmedCount s)
|}.

End SpecSchedule.

(** ** The creation form of the client: [isReady] *)

Module NewAlarm.

(** A JavaScript number, as far as ordering goes: a finite double is the
    rational it denotes; comparisons with [NaN] are false. *)
Inductive JsNumber : Type :=
| Finite (q : Q)
| NaN
| PosInfinity
| NegInfinity.

Definition Qltb (a b : Q) : bool := negb (Qle_bool b a).

(** [a > c], [a >= c] and [a <= c] for a finite constant [c]. *)
Definition js_gt (a : JsNumber) (c : Q) : bool :=
  match a with
  | Finite q => Qltb c q
  | PosInfinity => true
  | NaN | NegInfinity => false
  end.

Definition js_ge (a : JsNumber) (c : Q) : bool :=
  match a with
  | Finite q => Qle_bool c q
  | PosInfinity => true
  | NaN | NegInfinity => false
  end.

Definition js_le (a : JsNumber) (c : Q) : bool :=
  match a with
  | Finite q => Qle_bool q c
  | NegInfinity => true
  | NaN | PosInfinity => false
  end.

(** The value of the [account] store: [undefined], or an account whose
    [address] is set once a wallet is connected. *)
Record Account : Type := {
  address : option string;
  isConnected : bool
}.

Record BundledParams : Type := {
  account : option Account;
  otherPlayer : string;
  alarmDays : list JsNumber;
  alarmTime : string;
  deposit : JsNumber;
  missedAlarmPenalty : JsNumber;
  submissionWindow : JsNumber;
  timezoneOffset : JsNumber;
  timezoneOffsetConfirmed : bool
}.

(** Truthiness of a string: every string but the empty one. *)
Definition truthy (s : string) : bool := negb (String.eqb s "").

(** [isReady]: the truthiness of the [&&] chain, which is what
    [createAlarm] tests with [!$isReady]. *)
Definition isReady (p : BundledParams) : bool :=
  match account p with
  | None => false                                  (* p.account?.address *)
  | Some acc =>
      match address acc with
      | None => false
      | Some addr =>
          truthy addr
          && js_gt (submissionWindow p) 0
          && negb (String.eqb (otherPlayer p) addr)
          && (0 <? List.length (alarmDays p))%nat
          && forallb (fun day => js_ge day 1 && js_le day 7) (alarmDays p)
          && (0 <? String.length (alarmTime p))%nat
          && js_gt (deposit p) 0
          && js_gt (missedAlarmPenalty p) 0
          && timezoneOffsetConfirmed p
          && js_ge (timezoneOffset p) (-12)
          && js_le (timezoneOffset p) 12
      end
  end.

(** What the comparisons say about the number compared. *)
Definition positive (a : JsNumber) : Prop :=
  match a with
  | Finite q => (0 < q)%Q
  | PosInfinity => True
  | NaN | NegInfinity => False
  end.

Definition within (lo hi : Q) (a : JsNumber) : Prop :=
  match a with
  | Finite q => (lo <= q)%Q /\ (q <= hi)%Q
  | _ => False
  end.

(** A form filled in: Monday, Wednesday and Friday at 7:00, a stake of 0.01
    and a penalty of 0.001, a window of half an hour, five hours behind UTC. *)
Definition filled : BundledParams :=
  {| account := Some {| address := Some "0xA11CE"%string; isConnected := true |};
     otherPlayer := "0xB0B";
     alarmDays := [Finite 1; Finite 3; Finite 5];
     alarmTime := "07:00";
     deposit := Finite (1 # 100);
     missedAlarmPenalty := Finite (1 # 1000);
     submissionWindow := Finite 1800;
     timezoneOffset := Finite (-5);
     timezoneOffsetConfirmed := true |}.

End NewAlarm.

(** ** The alarm time of the form: [timeStringToSeconds] *)

Module TimeString.

Import Ascii.

(** The value of an integer computation in doubles, as far as it is followed
    here: [Int z] is the double equal to the integer [z] (every integer up to
    2^53 in magnitude is one; the sign of a zero is not kept), [NotANumber]
    is NaN, and [Unmodelled] is a result this model does not determine (a
    value that needed rounding). *)
Inductive Num : Type :=
| Int (z : Z)
| NotANumber
| Unmodelled.

Definition MAX_SAFE : Z := 2 ^ 53.

Definition exact (z : Z) : Num :=
  if Z.abs z <=? MAX_SAFE then Int z else Unmodelled.

(** [a * b] and [a + b]: NaN absorbs. *)
Definition mul (a b : Num) : Num :=
  match a, b with
  | NotANumber, _ | _, NotANumber => NotANumber
  | Int x, Int y => exact (x * y)
  | _, _ => Unmodelled
  end.

Definition add (a b : Num) : Num :=
  match a, b with
  | NotANumber, _ | _, NotANumber => NotANumber
  | Int x, Int y => exact (x + y)
  | _, _ => Unmodelled
  end.

(** A [string] stands for the JavaScript string whose code units are its
    characters, all below 256. *)

(** White space that [parseInt] skips, among the code units below 256: TAB,
    LF, VT, FF, CR, SP and NBSP. *)
Definition is_white (c : ascii) : bool :=
  let n := nat_of_ascii c in
  ((9 <=? n) && (n <=? 13) || (n =? 32) || (n =? 160))%nat.

Definition digit_value (c : ascii) : option Z :=
  let n := nat_of_ascii c in
  if ((48 <=? n) && (n <=? 57))%nat then Some (Z.of_nat n - 48) else None.

Fixpoint skip_white (s : string) : string :=
  match s with
  | String c s' => if is_white c then skip_white s' else s
  | EmptyString => s
  end.

(** The value of the longest prefix of decimal digits, after [acc]; [None]
    when [s] does not begin with a digit and [seen] is false. *)
Fixpoint digits (seen : bool) (acc : Z) (s : string) : option Z :=
  match s with
  | String c s' =>
      match digit_value c with
      | Some d => digits true (10 * acc + d) s'
      | None => if seen then Some acc else None
      end
  | EmptyString => if seen then Some acc else None
  end.

(** [parseInt(s, 10)] *)
Definition parseInt (s : string) : Num :=
  let t := skip_white s in
  let (sign, body) :=
    match t with
    | String "-" r => (-1, r)
    | String "+" r => (1, r)
    | _ => (1, t)
    end in
  match digits false 0 body with
  | Some v => exact (sign * v)
  | None => NotANumber
  end.

(** [parseInt(x, 10)] for an array element that may be [undefined]: the
    string "undefined" has no digits. *)
Definition parseInt_element (x : option string) : Num :=
  match x with
  | Some s => parseInt s
  | None => NotANumber
  end.

(** [s.split(sep)] for a one-character separator. *)
Fixpoint split (sep : ascii) (s : string) : list string :=
  match s with
  | EmptyString => [EmptyString]
  | String c s' =>
      if Ascii.eqb c sep then EmptyString :: split sep s'
      else match split sep s' with
           | part :: parts => String c part :: parts
           | [] => [String c EmptyString]
           end
  end.

Definition timeStringToSeconds (timeString : string) : Num :=
  let parts := split ":" timeString in
  let hours := nth_error parts 0 in
  let minutes := nth_error parts 1 in
  let totalSeconds := Int 0 in
  let totalSeconds := add totalSeconds (mul (parseInt_element hours) (Int 3600)) in
  let totalSeconds := add totalSeconds (mul (parseInt_element minutes) (Int 60)) in
  totalSeconds.

(** The text of a time input: two digits, a colon, two digits. *)
Definition digit (d : Z) : ascii := ascii_of_nat (48 + Z.to_nat d).

Definition two_digits (n : Z) : string :=
  String (digit (n / 10)) (String (digit (n mod 10)) EmptyString).

Definition time_text (h m : Z) : string :=
  (two_digits h ++ ":" ++ two_digits m)%string.

Definition Num_eqb (a b : Num) : bool :=
  match a, b with
  | Int x, Int y => x =? y
  | NotANumber, NotANumber => true
  | Unmodelled, Unmodelled => true
  | _, _ => false
  end.

(** The form with another text in its time field. *)
Definition with_alarmTime (t : string) (p : NewAlarm.BundledParams)
  : NewAlarm.BundledParams :=
  {| NewAlarm.account := NewAlarm.account p;
     NewAlarm.otherPlayer := NewAlarm.otherPlayer p;
     NewAlarm.alarmDays := NewAlarm.alarmDays p;
     NewAlarm.alarmTime := t;
     NewAlarm.deposit := NewAlarm.deposit p;
     NewAlarm.missedAlarmPenalty := NewAlarm.missedAlarmPenalty p;
     NewAlarm.submissionWindow := NewAlarm.submissionWindow p;
     NewAlarm.timezoneOffset := NewAlarm.timezoneOffset p;
     NewAlarm.timezoneOffsetConfirmed := NewAlarm.timezoneOffsetConfirmed p |}.

Fixpoint contains (c : ascii) (s : string) : bool :=
  match s with
  | EmptyString => false
  | String c' s' => Ascii.eqb c' c || contains c s'
  end.

End TimeString.

(** ** Forms that are ready though not as the form intends *)

Module Unintended.

Import Ascii.






End Unintended.

(** ** A commitment played out: Alice and Bob, Monday, Wednesday and Friday at 7:00 *)

Module Scenario.

Definition alice : address := 1001.
Definition bob : address := 1002.
Definition carol : address := 1003.
Definition hub : address := 9000.

(** Day 4 after the epoch is a Monday. *)
Definition clock (day hours minutes : Z) : Z :=
  day * 86400 + hours * 3600 + minutes * 60.
Definition monday : Z := 4.
Definition wednesday : Z := 6.

Definition call (sender : address) (value now : Z) : Env :=
  {| msg_sender := sender; msg_value := value; tx_origin := sender;
     block_timestamp := now; accepts_transfer := fun _ => true;
     hub_responds := true |}.

Definition creation (stake now : Z) : Env :=
  {| msg_sender := hub; msg_value := stake; tx_origin := alice;
     block_timestamp := now; accepts_transfer := fun _ => true;
     hub_responds := true |}.

Definition terms (penalty : Z) : InitData :=
  {| data_alarmTime := 7 * 3600; data_alarmActiveDays := [1; 3; 5];
     data_missedAlarmPenalty := penalty; data_submissionWindow := 1800;
     data_timezoneOffset := 0; data_player2 := bob |}.

Definition then_ (w : Outcome World) (m : M unit) : Outcome World :=
  let? w0 := w in
  let? r := run m w0 in
  Return (fst r).

(** Alice stakes 10 on Monday at 5:00. *)
Definition created (penalty : Z) : Outcome World :=
  let? r := deploy (creation 10 (clock monday 5 0)) (terms penalty) in
  Return (fst r).

(** Bob joins with 10 on Monday at 6:00. *)
Definition joined (penalty : Z) : Outcome World :=
  then_ (created penalty) (start (call bob 10 (clock monday 6 0))).

(** Bob confirms on Monday and on Wednesday at 6:45; Alice never does. *)
Definition played (penalty : Z) : Outcome World :=
  then_ (then_ (joined penalty)
           (submitConfirmation (call bob 0 (clock monday 6 45))))
        (submitConfirmation (call bob 0 (clock wednesday 6 45))).

Definition world_of (w : Outcome World) : World :=
  match w with
  | Return w0 => w0
  | Revert _ => {| storage := Storage_zero; this_balance := 0 |}
  end.

(** The commitment at three penalties: 3 per miss, 10 per miss, and a
    penalty of 2^255 per miss. *)
Definition fair : World := world_of (played 3).
Definition harsh : World := world_of (played 10).
Definition steep : World := world_of (played (2 ^ 255)).

(** The commitment before Bob has joined, and just after. *)
Definition waiting : World := world_of (created 3).
Definition begun : World := world_of (joined 3).

(** Wednesday at 8:00: Alice has missed Monday and Wednesday, Bob nothing. *)
Definition alice_settles : Env := call alice 0 (clock wednesday 8 0).
Definition bob_settles : Env := call bob 0 (clock wednesday 8 0).


(** Monday at 6:00: Bob joins with a stake of 10. *)
Definition bob_joins : Env := call bob 10 (clock monday 6 0).

(** Monday at 8:00: Alice sends 5 and names Bob as the player to credit. *)
Definition alice_tops_up : Env := call alice 5 (clock monday 8 0).

(** Bob, on Monday at 6:40 and again at 6:50, within the same window. *)
Definition bob_confirms : Env := call bob 0 (clock monday 6 40).
Definition bob_confirms_again : Env := call bob 0 (clock monday 6 50).

(** Monday at 5:00: the hub deploys the commitment for Alice, who stakes 10
    on a penalty of 3 per miss. *)
Definition founding : Env := creation 10 (clock monday 5 0).
Definition founded : World := fst (result_of (deploy founding (terms 3))).

(** Wednesday at 8:00, Alice settling while Bob's account takes no transfer. *)
Definition alice_settles_bob_refuses : Env :=
  {| msg_sender := alice; msg_value := 0; tx_origin := alice;
     block_timestamp := clock wednesday 8 0;
     accepts_transfer := fun a => negb (a =? bob);
     hub_responds := true |}.



(** Carol, who is no party to the commitment, on Monday at 8:00. *)
Definition carol_meddles : Env := call carol 0 (clock monday 8 0).

End Scenario.

(** * Properties *)

Lemma status_eqb_eq a b : status_eqb a b = true <-> a = b.
Proof. destruct a, b; simpl; split; intros E; try reflexivity; discriminate E. Qed.

Lemma status_eqb_neq a b : status_eqb a b = false <-> a <> b.
Proof.
  rewrite <- status_eqb_eq. destruct (status_eqb a b); split; intros E;
    try reflexivity; try discriminate E; try (intros E'; discriminate E').
  contradiction E. reflexivity.
Qed.

Section Accounting.

Context `{Lib : AlarmScheduleLib}.

(** Unfold one call down to its guards and storage writes. *)
Ltac exec :=
  cbv beta iota zeta delta
    [run after init start addToBalance submitConfirmation withdraw
     onlyPlayer start_schedule bind ret lift require sload sstore selfbalance
     emit transfer hub_emitUserJoined payable nonpayable view outcome_bind];
  cbn [world effects storage this_balance fst snd app].

(** Follow the call through its branches, one test at a time. *)
Ltac branches :=
  repeat first
    [ reflexivity
    | rewrite !Z.leb_refl; cbn [andb]
    | match goal with
      | |- context [match ?c with _ => _ end] =>
          lazymatch c with
          | context [match _ with _ => _ end] => fail
          | _ => destruct c
          end;
          cbv beta iota;
          cbn [world effects storage this_balance fst snd app andb]
      end ].

(** ** Reading the players mapping after a write *)

Lemma player_at_set_players m s a :
  player_at (set_players m s) a = default Player_zero (m !! a).
Proof. reflexivity. Qed.

Lemma deposit_set_depositAmount_eq a v s :
  depositAmount (player_at (set_depositAmount a v s) a) = v.
Proof.
  unfold set_depositAmount. rewrite player_at_set_players.
  rewrite lookup_insert_eq. reflexivity.
Qed.

Lemma schedule_set_depositAmount a b v s :
  schedule (player_at (set_depositAmount a v s) b) = schedule (player_at s b).
Proof.
  unfold set_depositAmount. rewrite player_at_set_players.
  destruct (decide (a = b)) as [->|Hne].
  - rewrite lookup_insert_eq. reflexivity.
  - rewrite lookup_insert_ne by exact Hne. reflexivity.
Qed.

Lemma player_at_set_depositAmount_ne a b v s :
  a <> b -> player_at (set_depositAmount a v s) b = player_at s b.
Proof.
  intros Hne. unfold set_depositAmount. rewrite player_at_set_players.
  rewrite lookup_insert_ne by exact Hne. reflexivity.
Qed.

Lemma schedule_set_schedule_eq a sch s :
  schedule (player_at (set_schedule a sch s) a) = sch.
Proof.
  unfold set_schedule. rewrite player_at_set_players.
  rewrite lookup_insert_eq. reflexivity.
Qed.

Lemma deposit_set_schedule a b sch s :
  depositAmount (player_at (set_schedule a sch s) b) = depositAmount (player_at s b).
Proof.
  unfold set_schedule. rewrite player_at_set_players.
  destruct (decide (a = b)) as [->|Hne].
  - rewrite lookup_insert_eq. reflexivity.
  - rewrite lookup_insert_ne by exact Hne. reflexivity.
Qed.

Lemma player_at_set_schedule_ne a b sch s :
  a <> b -> player_at (set_schedule a sch s) b = player_at s b.
Proof.
  intros Hne. unfold set_schedule. rewrite player_at_set_players.
  rewrite lookup_insert_ne by exact Hne. reflexivity.
Qed.

Lemma player_at_set_status v s a : player_at (set_status v s) a = player_at s a.
Proof. reflexivity. Qed.

(** ** The penalty *)

Lemma checked_mul_returns a b : a * b <= MAX_UINT -> checked_mul a b = Return (a * b).
Proof. intros H. unfold checked_mul. apply Z.leb_le in H. rewrite H. reflexivity. Qed.

Lemma checked_mul_overflows a b :
  MAX_UINT < a * b -> checked_mul a b = Revert (Panic PANIC_ARITHMETIC).
Proof. intros H. unfold checked_mul. apply Z.leb_gt in H. rewrite H. reflexivity. Qed.

Lemma getPenaltyAmount_returns env s player n :
  AlarmSchedule_missedDeadlines (block_timestamp env) (schedule (player_at s player)) = Return n ->
  n * missedAlarmPenalty s <= MAX_UINT ->
  getPenaltyAmount env s player =
    Return (Z.min (depositAmount (player_at s player)) (n * missedAlarmPenalty s)).
Proof.
  intros Hn Hfit. unfold getPenaltyAmount. rewrite Hn. simpl.
  rewrite checked_mul_returns by exact Hfit. simpl.
  destruct (n * missedAlarmPenalty s >? depositAmount (player_at s player)) eqn:Hgt.
  - apply Z.gtb_gt in Hgt. f_equal. lia.
  - rewrite Z.gtb_ltb in Hgt. apply Z.ltb_ge in Hgt. f_equal. lia.
Qed.

Lemma getPenaltyAmount_overflows env s player n :
  AlarmSchedule_missedDeadlines (block_timestamp env) (schedule (player_at s player)) = Return n ->
  MAX_UINT < n * missedAlarmPenalty s ->
  getPenaltyAmount env s player = Revert (Panic PANIC_ARITHMETIC).
Proof.
  intros Hn Hover. unfold getPenaltyAmount. rewrite Hn. simpl.
  rewrite checked_mul_overflows by exact Hover. reflexivity.
Qed.

Lemma getPenaltyAmount_le_deposit env s player p :
  getPenaltyAmount env s player = Return p ->
  p <= depositAmount (player_at s player).
Proof.
  unfold getPenaltyAmount.
  destruct (AlarmSchedule_missedDeadlines _ _) as [n|f]; simpl; [|discriminate].
  destruct (checked_mul n (missedAlarmPenalty s)) as [v|f]; simpl; [|discriminate].
  destruct (v >? depositAmount (player_at s player)) eqn:Hgt; intros [= <-].
  - lia.
  - rewrite Z.gtb_ltb in Hgt. apply Z.ltb_ge in Hgt. exact Hgt.
Qed.

(** ** What a returning [withdraw] has done *)

Lemma withdraw_run env w :
  let s := storage w in
  let other := other_player env s in
  run (withdraw env) w =
    if msg_value env =? 0 then
      if (msg_sender env =? player1 s) || (msg_sender env =? player2 s) then
        let? penalties := applied_penalties env s in
        let? sum := checked_add (depositAmount (player_at s other)) (fst penalties) in
        let? amount := checked_sub sum (snd penalties) in
        let cleared := set_depositAmount other 0 (set_depositAmount (msg_sender env) 0 s) in
        if (amount <=? this_balance w) && accepts_transfer env other then
          if accepts_transfer env (msg_sender env) then
            Return ({| storage := set_status CANCELLED cleared;
                       this_balance := this_balance w - amount - (this_balance w - amount) |},
                    [Transfer other amount cleared;
                     Transfer (msg_sender env) (this_balance w - amount) cleared;
                     Emit (StatusChanged (status s) CANCELLED)])
          else Revert CallFailed
        else Revert CallFailed
      else Revert (RequireFailed "ONLY_PLAYER_ACTION")
    else Revert NonPayable.
Proof.
  intros s other. subst s other. unfold applied_penalties, other_player. exec.
  branches.
Qed.

Lemma start_run env w :
  let s := storage w in
  let now := block_timestamp env in
  run (start env) w =
    if status_eqb (status s) INACTIVE then
      if msg_value env >=? betAmount s then
        if msg_sender env =? player2 s then
          let? sch1 := AlarmSchedule_start now (schedule (player_at s (player1 s))) in
          let s1 := set_schedule (player1 s) sch1 s in
          let? sch2 := AlarmSchedule_start now (schedule (player_at s1 (player2 s))) in
          let s2 := set_schedule (player2 s) sch2 s1 in
          let? total := checked_add (depositAmount (player_at s2 (player2 s))) (msg_value env) in
          let s3 := set_depositAmount (player2 s) total s2 in
          if hub_responds env then
            Return ({| storage := set_status ACTIVE s3;
                       this_balance := this_balance w + msg_value env |},
                    [HubUserJoined (player2 s) s3;
                     Emit (CommitmentInitialized "Alarm Bet Started")])
          else Revert CallFailed
        else Revert (RequireFailed "ONLY_PLAYER_2_CAN_START")
      else Revert (RequireFailed "INSUFFICIENT_FUNDS_SENT")
    else Revert (RequireFailed "ALREADY_STARTED").
Proof.
  intros s now. subst s now. exec. branches.
Qed.

Lemma addToBalance_run env player w :
  let s := storage w in
  run (addToBalance env player) w =
    if (msg_sender env =? player1 s) || (msg_sender env =? player2 s) then
      if status_eqb (status s) ACTIVE then
        if (player =? player1 s) || (player =? player2 s) then
          let? total := checked_add (depositAmount (player_at s (msg_sender env)))
                          (msg_value env) in
          Return ({| storage := set_depositAmount (msg_sender env) total s;
                     this_balance := this_balance w + msg_value env |}, [])
        else Revert (RequireFailed "INVALID_PLAYER")
      else Revert (RequireFailed "NOT_ACTIVE")
    else Revert (RequireFailed "ONLY_PLAYER_ACTION").
Proof.
  intros s. subst s. exec. branches.
Qed.

Lemma submitConfirmation_run env w :
  let s := storage w in
  run (submitConfirmation env) w =
    if msg_value env =? 0 then
      if (msg_sender env =? player1 s) || (msg_sender env =? player2 s) then
        let? sch := AlarmSchedule_recordEntry (block_timestamp env)
                      (schedule (player_at s (msg_sender env))) in
        Return ({| storage := set_schedule (msg_sender env) sch s;
                   this_balance := this_balance w |},
                [Emit (ConfirmationSubmitted (msg_sender env))])
      else Revert (RequireFailed "ONLY_PLAYER_ACTION")
    else Revert NonPayable.
Proof.
  intros s. subst s. exec. branches.
Qed.

Lemma deploy_run env data :
  deploy env data =
    if msg_value env >? 0 then
      let? sch := AlarmSchedule_init (data_alarmTime data) (data_alarmActiveDays data)
                    (data_submissionWindow data) (data_timezoneOffset data) in
      let s0 :=
        {| status := INACTIVE; name := IMPLEMENTATION_NAME;
           deploymentHub := msg_sender env; players := ∅;
           alarmTime := data_alarmTime data;
           alarmActiveDays := data_alarmActiveDays data;
           submissionWindow := data_submissionWindow data;
           timezoneOffset := data_timezoneOffset data;
           betAmount := msg_value env; player1 := tx_origin env;
           player2 := data_player2 data;
           missedAlarmPenalty := data_missedAlarmPenalty data |} in
      Return ({| storage :=
                   set_schedule (data_player2 data) sch
                     (set_schedule (tx_origin env) sch
                        (set_depositAmount (tx_origin env) (msg_value env) s0));
                 this_balance := 0 + msg_value env |}, [])
    else Revert (RequireFailed "BET_VALUE_REQUIRED").
Proof.
  unfold deploy. exec. branches.
Qed.

Lemma outcome_bind_Return {A B} (o : Outcome A) (k : A -> Outcome B) b :
  outcome_bind o k = Return b -> exists a, o = Return a /\ k a = Return b.
Proof. destruct o as [a|f]; simpl; intros H; [exists a; auto | discriminate H]. Qed.

Lemma checked_add_Return a b c :
  checked_add a b = Return c -> c = a + b /\ a + b <= MAX_UINT.
Proof.
  unfold checked_add. destruct (a + b <=? MAX_UINT) eqn:E; intros [= <-].
  apply Z.leb_le in E. auto.
Qed.

Lemma checked_sub_Return a b c :
  checked_sub a b = Return c -> c = a - b /\ b <= a.
Proof.
  unfold checked_sub. destruct (b <=? a) eqn:E; intros [= <-].
  apply Z.leb_le in E. auto.
Qed.

Lemma is_player_test s a :
  (a =? player1 s) || (a =? player2 s) = true <-> is_player s a.
Proof.
  unfold is_player. rewrite orb_true_iff, !Z.eqb_eq. reflexivity.
Qed.

Lemma returned (o : Outcome (World * list Effect)) :
  returns o = true -> o = Return (fst (result_of o), snd (result_of o)).
Proof. destruct o as [[w es]|f]; simpl; intros H; [reflexivity | discriminate H]. Qed.

Lemma returned_value {A} (d : A) (o : Outcome A) :
  returns o = true -> o = Return (value_or d o).
Proof. destruct o; simpl; intros H; [reflexivity | discriminate H]. Qed.


(** ** What a returning [withdraw] has done *)

Lemma withdraw_inv env w w' es :
  run (withdraw env) w = Return (w', es) ->
  let s := storage w in
  let other := other_player env s in
  msg_value env = 0 /\ is_player s (msg_sender env) /\
  exists cp op,
    applied_penalties env s = Return (cp, op) /\
    let amount := depositAmount (player_at s other) + cp - op in
    let cleared := set_depositAmount other 0 (set_depositAmount (msg_sender env) 0 s) in
    depositAmount (player_at s other) + cp <= MAX_UINT /\
    op <= depositAmount (player_at s other) + cp /\
    amount <= this_balance w /\
    accepts_transfer env other = true /\
    accepts_transfer env (msg_sender env) = true /\
    w' = {| storage := set_status CANCELLED cleared; this_balance := 0 |} /\
    es = [Transfer other amount cleared;
          Transfer (msg_sender env) (this_balance w - amount) cleared;
          Emit (StatusChanged (status s) CANCELLED)].
Proof.
  intros H s other. rewrite withdraw_run in H. cbv zeta in H. fold s other in H.
  destruct (msg_value env =? 0) eqn:Hval; [|discriminate H].
  destruct ((msg_sender env =? player1 s) || (msg_sender env =? player2 s)) eqn:Hpl;
    [|discriminate H].
  apply outcome_bind_Return in H as ([cp op] & Hpen & H).
  apply outcome_bind_Return in H as (sum & Hsum & H).
  apply outcome_bind_Return in H as (amount & Hamount & H).
  apply checked_add_Return in Hsum as [-> Hfit].
  apply checked_sub_Return in Hamount as [-> Hle].
  cbn [fst snd] in *.
  destruct ((depositAmount (player_at s other) + cp - op <=? this_balance w)
            && accepts_transfer env other) eqn:Hfirst; [|discriminate H].
  destruct (accepts_transfer env (msg_sender env)) eqn:Hsecond; [|discriminate H].
  apply andb_true_iff in Hfirst as [Hbal Hacc]. apply Z.leb_le in Hbal.
  injection H as <- <-.
  split; [apply Z.eqb_eq; exact Hval|].
  split; [apply is_player_test; exact Hpl|].
  exists cp, op. cbv zeta. repeat split; auto.
  f_equal. lia.
Qed.

(** [withdraw] returns once the guards pass, the penalties are computed and
    both receivers take their transfer. *)
Lemma withdraw_returns env w cp op :
  let s := storage w in
  let other := other_player env s in
  msg_value env = 0 ->
  is_player s (msg_sender env) ->
  applied_penalties env s = Return (cp, op) ->
  depositAmount (player_at s other) + cp <= MAX_UINT ->
  op <= depositAmount (player_at s other) + cp ->
  depositAmount (player_at s other) + cp - op <= this_balance w ->
  accepts_transfer env other = true ->
  accepts_transfer env (msg_sender env) = true ->
  exists w' es, run (withdraw env) w = Return (w', es).
Proof.
  intros s other Hval Hpl Hpen Hfit Hle Hbal Hacc1 Hacc2.
  rewrite withdraw_run. cbv zeta. fold s other.
  apply Z.eqb_eq in Hval. rewrite Hval.
  apply is_player_test in Hpl. rewrite Hpl.
  rewrite Hpen. cbn [outcome_bind fst snd].
  unfold checked_add. apply Z.leb_le in Hfit. rewrite Hfit. cbn [outcome_bind].
  unfold checked_sub. apply Z.leb_le in Hle. rewrite Hle. cbn [outcome_bind].
  apply Z.leb_le in Hbal. rewrite Hbal, Hacc1, Hacc2. cbn [andb].
  eexists _, _. reflexivity.
Qed.

(** In a funded commitment the caller and the other player are the two
    distinct players. *)
Lemma other_player_distinct env w :
  funded w -> is_player (storage w) (msg_sender env) ->
  other_player env (storage w) <> msg_sender env /\
  deposit_of w (msg_sender env) + deposit_of w (other_player env (storage w))
    = this_balance w.
Proof.
  intros [Hne Hbal] Hpl. unfold other_player.
  destruct (msg_sender env =? player1 (storage w)) eqn:E.
  - apply Z.eqb_eq in E. rewrite E. split; [congruence | lia].
  - apply Z.eqb_neq in E. destruct Hpl as [Hp|Hp]; [contradiction|].
    rewrite Hp. split; [congruence | lia].
Qed.

Lemma paid_to_withdraw a b x y s1 s2 e :
  a <> b ->
  paid_to a [Transfer b x s1; Transfer a y s2; Emit e] = y /\
  paid_to b [Transfer b x s1; Transfer a y s2; Emit e] = x.
Proof.
  intros Hne. cbn [paid_to].
  rewrite !Z.eqb_refl.
  assert (Hab : (a =? b) = false) by (apply Z.eqb_neq; exact Hne).
  assert (Hba : (b =? a) = false) by (apply Z.eqb_neq; congruence).
  rewrite Hab, Hba. lia.
Qed.

(** ** The contract holds what it records *)

Lemma deploy_funded env data w es :
  tx_origin env <> data_player2 data ->
  deploy env data = Return (w, es) ->
  funded w /\ status (storage w) = INACTIVE /\
  betAmount (storage w) = deposit_of w (player1 (storage w)).
Proof.
  intros Hne H. rewrite deploy_run in H.
  destruct (msg_value env >? 0); [|discriminate H].
  apply outcome_bind_Return in H as (sch & _ & H). cbv zeta in H.
  injection H as <- <-.
  unfold funded, deposit_of. cbn [storage this_balance].
  rewrite !deposit_set_schedule.
  change (player1 (set_schedule _ _ _)) with (tx_origin env).
  change (player2 (set_schedule _ _ _)) with (data_player2 data).
  change (betAmount (set_schedule _ _ _)) with (msg_value env).
  rewrite deposit_set_depositAmount_eq.
  rewrite player_at_set_depositAmount_ne by exact Hne.
  unfold player_at. cbn [players]. rewrite lookup_empty. cbn [default depositAmount Player_zero].
  split; [split; [exact Hne | lia] | split; reflexivity].
Qed.

Lemma start_funded env w w' es :
  funded w -> run (start env) w = Return (w', es) -> funded w'.
Proof.
  intros [Hne Hbal] H. rewrite start_run in H. cbv zeta in H.
  destruct (status_eqb (status (storage w)) INACTIVE); [|discriminate H].
  destruct (msg_value env >=? betAmount (storage w)); [|discriminate H].
  destruct (msg_sender env =? player2 (storage w)); [|discriminate H].
  apply outcome_bind_Return in H as (sch1 & _ & H).
  apply outcome_bind_Return in H as (sch2 & _ & H).
  apply outcome_bind_Return in H as (total & Htotal & H).
  apply checked_add_Return in Htotal as [-> _].
  destruct (hub_responds env); [|discriminate H].
  injection H as <- <-.
  unfold funded, deposit_of in *. cbn [storage this_balance].
  change (player1 (set_status _ _)) with (player1 (storage w)).
  change (player2 (set_status _ _)) with (player2 (storage w)).
  split; [exact Hne|].
  rewrite !player_at_set_status.
  rewrite deposit_set_depositAmount_eq.
  rewrite player_at_set_depositAmount_ne by congruence.
  rewrite !deposit_set_schedule. lia.
Qed.

Lemma addToBalance_funded env player w w' es :
  funded w -> run (addToBalance env player) w = Return (w', es) -> funded w'.
Proof.
  intros [Hne Hbal] H. rewrite addToBalance_run in H. cbv zeta in H.
  destruct ((msg_sender env =? player1 (storage w))
            || (msg_sender env =? player2 (storage w))) eqn:Hpl; [|discriminate H].
  destruct (status_eqb (status (storage w)) ACTIVE); [|discriminate H].
  destruct ((player =? player1 (storage w)) || (player =? player2 (storage w)));
    [|discriminate H].
  apply outcome_bind_Return in H as (total & Htotal & H).
  apply checked_add_Return in Htotal as [-> _].
  injection H as <- <-.
  unfold funded, deposit_of in *. cbn [storage this_balance].
  change (player1 (set_depositAmount _ _ _)) with (player1 (storage w)).
  change (player2 (set_depositAmount _ _ _)) with (player2 (storage w)).
  split; [exact Hne|].
  apply is_player_test in Hpl. destruct Hpl as [Hp|Hp]; rewrite Hp.
  - rewrite deposit_set_depositAmount_eq.
    rewrite player_at_set_depositAmount_ne by exact Hne. lia.
  - rewrite deposit_set_depositAmount_eq.
    rewrite player_at_set_depositAmount_ne by congruence. lia.
Qed.

Lemma submitConfirmation_funded env w w' es :
  funded w -> run (submitConfirmation env) w = Return (w', es) -> funded w'.
Proof.
  intros [Hne Hbal] H. rewrite submitConfirmation_run in H. cbv zeta in H.
  destruct (msg_value env =? 0); [|discriminate H].
  destruct ((msg_sender env =? player1 (storage w))
            || (msg_sender env =? player2 (storage w))); [|discriminate H].
  apply outcome_bind_Return in H as (sch & _ & H).
  injection H as <- <-.
  unfold funded, deposit_of in *. cbn [storage this_balance].
  change (player1 (set_schedule _ _ _)) with (player1 (storage w)).
  change (player2 (set_schedule _ _ _)) with (player2 (storage w)).
  rewrite !deposit_set_schedule. split; [exact Hne | exact Hbal].
Qed.

Lemma withdraw_funded env w w' es :
  funded w -> run (withdraw env) w = Return (w', es) -> funded w'.
Proof.
  intros Hf H. apply withdraw_inv in H. cbv zeta in H.
  destruct H as (_ & Hpl & cp & op & _ & _ & _ & _ & _ & _ & -> & _).
  destruct (other_player_distinct env w Hf Hpl) as [Hother _].
  destruct Hf as [Hne Hbal].
  unfold funded, deposit_of in *. cbn [storage this_balance].
  change (player1 (set_status _ _)) with (player1 (storage w)).
  change (player2 (set_status _ _)) with (player2 (storage w)).
  split; [exact Hne|]. rewrite !player_at_set_status.
  assert (Hzero : forall a, is_player (storage w) a ->
            depositAmount (player_at
              (set_depositAmount (other_player env (storage w)) 0
                 (set_depositAmount (msg_sender env) 0 (storage w))) a) = 0).
  { intros a Ha.
    destruct (decide (other_player env (storage w) = a)) as [<-|Hd].
    - apply deposit_set_depositAmount_eq.
    - rewrite player_at_set_depositAmount_ne by exact Hd.
      assert (a = msg_sender env) as ->.
      { unfold other_player in *. unfold is_player in *.
        destruct (msg_sender env =? player1 (storage w)) eqn:E.
        - apply Z.eqb_eq in E. destruct Ha; congruence.
        - apply Z.eqb_neq in E. destruct Ha, Hpl; congruence. }
      apply deposit_set_depositAmount_eq. }
  rewrite !Hzero by (unfold is_player; auto). reflexivity.
Qed.

(** Every world of a commitment between two distinct players is funded. *)
Lemma reachable_funded w : reachable w -> funded w.
Proof.
  induction 1 as [env data w es Hne H | env w w' es _ IH H
                 | env player w w' es _ IH H | env w w' es _ IH H
                 | env w w' es _ IH H].
  - exact (proj1 (deploy_funded env data w es Hne H)).
  - exact (start_funded env w w' es IH H).
  - exact (addToBalance_funded env player w w' es IH H).
  - exact (submitConfirmation_funded env w w' es IH H).
  - exact (withdraw_funded env w w' es IH H).
Qed.

(** While a commitment waits for the second player, [betAmount] is the
    initiator's recorded stake. *)
Lemma reachable_inactive_bet w :
  reachable w ->
  status (storage w) = INACTIVE ->
  betAmount (storage w) = deposit_of w (player1 (storage w)).
Proof.
  induction 1 as [env data w es Hne H | env w w' es _ IH H
                 | env player w w' es _ IH H | env w w' es _ IH H
                 | env w w' es _ IH H]; intros Hst.
  - exact (proj2 (proj2 (deploy_funded env data w es Hne H))).
  - exfalso. rewrite start_run in H. cbv zeta in H.
    destruct (status_eqb (status (storage w)) INACTIVE); [|discriminate H].
    destruct (msg_value env >=? betAmount (storage w)); [|discriminate H].
    destruct (msg_sender env =? player2 (storage w)); [|discriminate H].
    apply outcome_bind_Return in H as (sch1 & _ & H).
    apply outcome_bind_Return in H as (sch2 & _ & H).
    apply outcome_bind_Return in H as (total & _ & H).
    destruct (hub_responds env); [|discriminate H].
    injection H as <- <-. discriminate Hst.
  - exfalso. rewrite addToBalance_run in H. cbv zeta in H.
    destruct ((msg_sender env =? player1 (storage w))
              || (msg_sender env =? player2 (storage w))); [|discriminate H].
    destruct (status_eqb (status (storage w)) ACTIVE) eqn:Hact; [|discriminate H].
    destruct ((player =? player1 (storage w)) || (player =? player2 (storage w)));
      [|discriminate H].
    apply outcome_bind_Return in H as (total & _ & H).
    injection H as <- <-. apply status_eqb_eq in Hact.
    cbn [storage] in Hst.
    change (status (set_depositAmount (msg_sender env) total (storage w)))
      with (status (storage w)) in Hst.
    congruence.
  - rewrite submitConfirmation_run in H. cbv zeta in H.
    destruct (msg_value env =? 0); [|discriminate H].
    destruct ((msg_sender env =? player1 (storage w))
              || (msg_sender env =? player2 (storage w))); [|discriminate H].
    apply outcome_bind_Return in H as (sch & _ & H).
    injection H as <- <-.
    unfold deposit_of in *. cbn [storage] in *.
    change (status (set_schedule (msg_sender env) sch (storage w)))
      with (status (storage w)) in Hst.
    change (betAmount (set_schedule (msg_sender env) sch (storage w)))
      with (betAmount (storage w)).
    change (player1 (set_schedule (msg_sender env) sch (storage w)))
      with (player1 (storage w)).
    rewrite deposit_set_schedule. exact (IH Hst).
  - exfalso. apply withdraw_inv in H. cbv zeta in H.
    destruct H as (_ & _ & cp & op & _ & _ & _ & _ & _ & _ & -> & _).
    discriminate Hst.
Qed.

(** ** Settlement *)

(** C1. Settlement is zero-sum: when [withdraw] pays out of a commitment that
    holds the two players' stakes, the amount transferred to the caller plus
    the amount transferred to the other player equals the sum of their two
    recorded balances before the call, and nothing stays in the contract. *)
Theorem settlement_zero_sum env w w' es :
  funded w ->
  run (withdraw env) w = Return (w', es) ->
  paid_to (msg_sender env) es + paid_to (other_player env (storage w)) es
    = deposit_of w (msg_sender env) + deposit_of w (other_player env (storage w))
  /\ this_balance w' = 0.
Proof.
  intros Hf H. apply withdraw_inv in H. cbv zeta in H.
  destruct H as (_ & Hpl & cp & op & _ & _ & _ & _ & _ & _ & -> & ->).
  destruct (other_player_distinct env w Hf Hpl) as [Hne Hsum].
  destruct (paid_to_withdraw (msg_sender env) (other_player env (storage w))
              (depositAmount (player_at (storage w) (other_player env (storage w))) + cp - op)
              (this_balance w -
               (depositAmount (player_at (storage w) (other_player env (storage w))) + cp - op))
              (set_depositAmount (other_player env (storage w)) 0
                 (set_depositAmount (msg_sender env) 0 (storage w)))
              (set_depositAmount (other_player env (storage w)) 0
                 (set_depositAmount (msg_sender env) 0 (storage w)))
              (StatusChanged (status (storage w)) CANCELLED)) as [-> ->];
    [congruence|].
  split; [lia | reflexivity].
Qed.

(** C3. On settlement of an active commitment the other player receives
    exactly [other.balance + callerPenalty - otherPenalty], the caller exactly
    [caller.balance - callerPenalty + otherPenalty], both stored balances are
    zero afterwards and the status is the terminal one (CANCELLED in the
    contract, SETTLED in the spec). *)
Theorem settlement_payouts env w w' es :
  funded w ->
  status (storage w) = ACTIVE ->
  run (withdraw env) w = Return (w', es) ->
  let caller := msg_sender env in
  let other := other_player env (storage w) in
  exists callerPenalty otherPenalty,
    getPenaltyAmount env (storage w) caller = Return callerPenalty /\
    getPenaltyAmount env (storage w) other = Return otherPenalty /\
    paid_to other es = deposit_of w other + callerPenalty - otherPenalty /\
    paid_to caller es = deposit_of w caller - callerPenalty + otherPenalty /\
    deposit_of w' caller = 0 /\
    deposit_of w' other = 0 /\
    status (storage w') = CANCELLED.
Proof.
  intros Hf Hact H caller other. apply withdraw_inv in H. cbv zeta in H.
  fold caller other in H.
  destruct H as (_ & Hpl & cp & op & Hpen & _ & _ & _ & _ & _ & -> & ->).
  destruct (other_player_distinct env w Hf Hpl) as [Hne Hsum].
  fold caller other in Hne, Hsum.
  unfold applied_penalties in Hpen. rewrite Hact in Hpen. cbn [status_eqb] in Hpen.
  apply outcome_bind_Return in Hpen as (cp' & Hcp & Hpen).
  apply outcome_bind_Return in Hpen as (op' & Hop & Hpen).
  injection Hpen as -> ->. fold caller other in Hcp, Hop.
  exists cp, op.
  destruct (paid_to_withdraw caller other
              (depositAmount (player_at (storage w) other) + cp - op)
              (this_balance w - (depositAmount (player_at (storage w) other) + cp - op))
              (set_depositAmount other 0 (set_depositAmount caller 0 (storage w)))
              (set_depositAmount other 0 (set_depositAmount caller 0 (storage w)))
              (StatusChanged (status (storage w)) CANCELLED)) as [Hc Ho];
    [congruence|].
  rewrite Hc, Ho. unfold deposit_of in *. cbn [storage].
  rewrite !player_at_set_status.
  rewrite deposit_set_depositAmount_eq.
  rewrite player_at_set_depositAmount_ne by exact Hne.
  rewrite deposit_set_depositAmount_eq.
  repeat split; auto; lia.
Qed.

(** ** The penalty and the balance query *)

(** C2, as amended. With [n] the player's missed deadlines: when
    [n * missedAlarmPenalty] fits in a uint256, [getPenaltyAmount] returns
    [min(deposit, n * missedAlarmPenalty)], which is the deposit itself when
    the product exceeds it; when the product does not fit, the checked
    multiplication reverts and no penalty is returned. *)
Theorem penalty_capped_when_product_fits env s player n :
  AlarmSchedule_missedDeadlines (block_timestamp env) (schedule (player_at s player))
    = Return n ->
  let deposit := depositAmount (player_at s player) in
  let product := n * missedAlarmPenalty s in
  (product <= MAX_UINT ->
     getPenaltyAmount env s player = Return (Z.min deposit product) /\
     (deposit < product -> getPenaltyAmount env s player = Return deposit)) /\
  (MAX_UINT < product ->
     getPenaltyAmount env s player = Revert (Panic PANIC_ARITHMETIC)).
Proof.
  intros Hn deposit product. split.
  - intros Hfit.
    pose proof (getPenaltyAmount_returns env s player n Hn Hfit) as H.
    fold deposit product in H. split; [exact H|].
    intros Hlt. rewrite H. f_equal. lia.
  - intros Hover. exact (getPenaltyAmount_overflows env s player n Hn Hover).
Qed.

(** C10, as amended. Whatever [getPenaltyAmount] returns is at most the
    player's deposit, so the subtraction in [getPlayerBalance] never
    underflows: it returns [deposit - penalty >= 0] whenever the penalty is
    returned, and it reverts only when [getPenaltyAmount] itself does. *)
Theorem balance_query_never_underflows env s player :
  (forall penalty,
     getPenaltyAmount env s player = Return penalty ->
     penalty <= depositAmount (player_at s player) /\
     getPlayerBalance env s player
       = Return (depositAmount (player_at s player) - penalty) /\
     0 <= depositAmount (player_at s player) - penalty) /\
  (forall f,
     getPenaltyAmount env s player = Revert f ->
     getPlayerBalance env s player = Revert f).
Proof.
  split.
  - intros penalty H.
    pose proof (getPenaltyAmount_le_deposit env s player penalty H) as Hle.
    unfold getPlayerBalance. rewrite H. cbn [outcome_bind].
    unfold checked_sub. apply Z.leb_le in Hle as Hb. rewrite Hb.
    repeat split; [exact Hle | lia].
  - intros f H. unfold getPlayerBalance. rewrite H. reflexivity.
Qed.

(** ** Lifecycle guards *)

(** C6. [start] returns only when the status is INACTIVE, the caller is
    [player2] and the value sent is at least [betAmount], the initiator's
    stake; otherwise it reverts with ALREADY_STARTED, ONLY_PLAYER_2_CAN_START
    or INSUFFICIENT_FUNDS_SENT (the spec's AlreadyActive, WrongParticipant and
    InsufficientStake), tested in the order status, stake, caller.  When it
    returns, both schedules have been started at the block time, the value is
    added to [player2]'s balance and the status is ACTIVE; and it does return
    when the three conditions hold, the schedules start, the sum fits and the
    hub answers. *)
Theorem start_guards env w :
  let s := storage w in
  let now := block_timestamp env in
  (status s <> INACTIVE ->
     run (start env) w = Revert (RequireFailed "ALREADY_STARTED")) /\
  (status s = INACTIVE -> msg_value env < betAmount s ->
     run (start env) w = Revert (RequireFailed "INSUFFICIENT_FUNDS_SENT")) /\
  (status s = INACTIVE -> betAmount s <= msg_value env ->
   msg_sender env <> player2 s ->
     run (start env) w = Revert (RequireFailed "ONLY_PLAYER_2_CAN_START")) /\
  (forall w' es,
     run (start env) w = Return (w', es) ->
     status s = INACTIVE /\ msg_sender env = player2 s /\
     betAmount s <= msg_value env /\
     status (storage w') = ACTIVE /\
     deposit_of w' (player2 s) = deposit_of w (player2 s) + msg_value env /\
     this_balance w' = this_balance w + msg_value env /\
     (player1 s <> player2 s ->
        AlarmSchedule_start now (schedule (player_at s (player1 s)))
          = Return (schedule (player_at (storage w') (player1 s))) /\
        AlarmSchedule_start now (schedule (player_at s (player2 s)))
          = Return (schedule (player_at (storage w') (player2 s))) /\
        deposit_of w' (player1 s) = deposit_of w (player1 s))) /\
  (forall sch1 sch2,
     status s = INACTIVE -> msg_sender env = player2 s ->
     betAmount s <= msg_value env ->
     player1 s <> player2 s ->
     AlarmSchedule_start now (schedule (player_at s (player1 s))) = Return sch1 ->
     AlarmSchedule_start now (schedule (player_at s (player2 s))) = Return sch2 ->
     deposit_of w (player2 s) + msg_value env <= MAX_UINT ->
     hub_responds env = true ->
     exists w' es, run (start env) w = Return (w', es)).
Proof.
  intros s now. rewrite start_run. cbv zeta. fold s now.
  repeat apply conj.
  - intros Hst. apply status_eqb_neq in Hst. rewrite Hst. reflexivity.
  - intros Hst Hlt. apply status_eqb_eq in Hst. rewrite Hst.
    rewrite Z.geb_leb. apply Z.leb_gt in Hlt. rewrite Hlt. reflexivity.
  - intros Hst Hge Hsender. apply status_eqb_eq in Hst. rewrite Hst.
    rewrite Z.geb_leb. apply Z.leb_le in Hge. rewrite Hge.
    apply Z.eqb_neq in Hsender. rewrite Hsender. reflexivity.
  - intros w' es H.
    destruct (status_eqb (status s) INACTIVE) eqn:Hst; [|discriminate H].
    destruct (msg_value env >=? betAmount s) eqn:Hge; [|discriminate H].
    destruct (msg_sender env =? player2 s) eqn:Hsender; [|discriminate H].
    apply outcome_bind_Return in H as (sch1 & Hs1 & H).
    apply outcome_bind_Return in H as (sch2 & Hs2 & H).
    apply outcome_bind_Return in H as (total & Htotal & H).
    apply checked_add_Return in Htotal as [-> _].
    destruct (hub_responds env); [|discriminate H].
    injection H as <- <-.
    apply status_eqb_eq in Hst. apply Z.eqb_eq in Hsender.
    rewrite Z.geb_leb in Hge. apply Z.leb_le in Hge.
    unfold deposit_of. cbn [storage this_balance].
    rewrite !player_at_set_status.
    rewrite deposit_set_depositAmount_eq, !deposit_set_schedule.
    repeat apply conj; try reflexivity; try assumption.
    + intros Hne.
      rewrite player_at_set_schedule_ne in Hs2 by exact Hne.
      rewrite !schedule_set_depositAmount.
      rewrite schedule_set_schedule_eq.
      rewrite player_at_set_schedule_ne by congruence.
      rewrite schedule_set_schedule_eq.
      rewrite player_at_set_depositAmount_ne by congruence.
      rewrite !deposit_set_schedule.
      repeat apply conj; [exact Hs1 | exact Hs2 | reflexivity].
  - intros sch1 sch2 Hst Hsender Hge Hne Hs1 Hs2 Hfit Hhub.
    apply status_eqb_eq in Hst. rewrite Hst.
    rewrite Z.geb_leb. apply Z.leb_le in Hge. rewrite Hge.
    apply Z.eqb_eq in Hsender. rewrite Hsender.
    rewrite Hs1. cbn [outcome_bind].
    rewrite player_at_set_schedule_ne by exact Hne.
    rewrite Hs2. cbn [outcome_bind].
    rewrite !deposit_set_schedule.
    unfold checked_add. unfold deposit_of in Hfit. fold s in Hfit.
    apply Z.leb_le in Hfit. rewrite Hfit. cbn [outcome_bind].
    rewrite Hhub. eexists _, _. reflexivity.
Qed.

(** [addToBalance] credits the caller, whoever is named. *)
Lemma addToBalance_credits_sender env player w w' es :
  run (addToBalance env player) w = Return (w', es) ->
  deposit_of w' (msg_sender env) = deposit_of w (msg_sender env) + msg_value env /\
  (forall a, a <> msg_sender env -> deposit_of w' a = deposit_of w a).
Proof.
  intros H. rewrite addToBalance_run in H. cbv zeta in H.
  destruct ((msg_sender env =? player1 (storage w))
            || (msg_sender env =? player2 (storage w))); [|discriminate H].
  destruct (status_eqb (status (storage w)) ACTIVE); [|discriminate H].
  destruct ((player =? player1 (storage w)) || (player =? player2 (storage w)));
    [|discriminate H].
  apply outcome_bind_Return in H as (total & Htotal & H).
  apply checked_add_Return in Htotal as [-> _].
  injection H as <- <-. unfold deposit_of. cbn [storage]. split.
  - apply deposit_set_depositAmount_eq.
  - intros a Ha. rewrite player_at_set_depositAmount_ne by congruence. reflexivity.
Qed.

(** Both transfers of [withdraw] leave while the status slot still holds the
    value it had when the call began; only the deposits are cleared. *)
Lemma withdraw_transfers_see_old_status env w w' es to amount seen :
  run (withdraw env) w = Return (w', es) ->
  In (Transfer to amount seen) es ->
  status seen = status (storage w) /\
  depositAmount (player_at seen (msg_sender env)) = 0 /\
  depositAmount (player_at seen (other_player env (storage w))) = 0.
Proof.
  intros H Hin. apply withdraw_inv in H. cbv zeta in H.
  destruct H as (_ & _ & cp & op & _ & _ & _ & _ & _ & _ & _ & ->).
  assert (seen = set_depositAmount (other_player env (storage w)) 0
                   (set_depositAmount (msg_sender env) 0 (storage w))) as ->.
  { cbn [In] in Hin. destruct Hin as [E|[E|[E|[]]]]; congruence. }
  split; [reflexivity|]. split.
  - destruct (decide (other_player env (storage w) = msg_sender env)) as [E|Hne].
    + rewrite E. apply deposit_set_depositAmount_eq.
    + rewrite player_at_set_depositAmount_ne by exact Hne.
      apply deposit_set_depositAmount_eq.
  - apply deposit_set_depositAmount_eq.
Qed.


End Accounting.

(** * Confirmations, over the schedule of the written specification *)

Section Confirmations.

Import SpecSchedule.

Lemma openOccurrence_confirmed_irrelevant p t0 X Y at_ :
  openOccurrence {| pattern := p; startTime := t0; confirmedOccurrences := X |} at_ =
  openOccurrence {| pattern := p; startTime := t0; confirmedOccurrences := Y |} at_.
Proof. reflexivity. Qed.

Lemma recordConfirmation_open s at_ k :
  openOccurrence s at_ = Some k ->
  recordConfirmation at_ s =
    Return {| pattern := pattern s; startTime := startTime s;
              confirmedOccurrences := {[ k ]} ∪ confirmedOccurrences s |}.
Proof. intros H. unfold recordConfirmation. rewrite H. reflexivity. Qed.

Lemma confirmedCount_fresh s k :
  k ∉ confirmedOccurrences s ->
  confirmedCount {| pattern := pattern s; startTime := startTime s;
                    confirmedOccurrences := {[ k ]} ∪ confirmedOccurrences s |}
  = confirmedCount s + 1.
Proof.
  intros Hk. unfold confirmedCount. cbn [confirmedOccurrences].
  rewrite size_union by (apply disjoint_singleton_l; exact Hk).
  rewrite size_singleton. lia.
Qed.

Lemma confirmedCount_again s k :
  k ∈ confirmedOccurrences s ->
  confirmedCount {| pattern := pattern s; startTime := startTime s;
                    confirmedOccurrences := {[ k ]} ∪ confirmedOccurrences s |}
  = confirmedCount s.
Proof.
  intros Hk. unfold confirmedCount. cbn [confirmedOccurrences].
  assert (E : {[ k ]} ∪ confirmedOccurrences s = confirmedOccurrences s)
    by (apply subseteq_union_1_L, singleton_subseteq_l; exact Hk).
  rewrite E. reflexivity.
Qed.

(** C8. Confirmation is idempotent (over the schedule tracker as the spec
    describes it): when a player confirms twice while the same window is
    open, both calls return, the first raises that player's confirmed count
    by one and the second leaves it there. *)
Theorem confirmation_idempotent (env1 env2 : Env) (w : World) (k : Z) :
  let s := storage w in
  let a := msg_sender env1 in
  msg_sender env2 = a ->
  msg_value env1 = 0 ->
  msg_value env2 = 0 ->
  is_player s a ->
  openOccurrence (schedule (player_at s a)) (block_timestamp env1) = Some k ->
  openOccurrence (schedule (player_at s a)) (block_timestamp env2) = Some k ->
  k ∉ confirmedOccurrences (schedule (player_at s a)) ->
  exists w1 es1 w2 es2 n,
    run (submitConfirmation env1) w = Return (w1, es1) /\
    run (submitConfirmation env2) w1 = Return (w2, es2) /\
    numConfirmations s a = Return n /\
    numConfirmations (storage w1) a = Return (n + 1) /\
    numConfirmations (storage w2) a = Return (n + 1).
Proof.
  intros s a Hsame Hv1 Hv2 Hpl Hopen1 Hopen2 Hfresh.
  set (sch := schedule (player_at s a)) in *.
  set (sch1 := {| pattern := pattern sch; startTime := startTime sch;
                  confirmedOccurrences := {[ k ]} ∪ confirmedOccurrences sch |}).
  set (sch2 := {| pattern := pattern sch1; startTime := startTime sch1;
                  confirmedOccurrences := {[ k ]} ∪ confirmedOccurrences sch1 |}).
  set (w1 := {| storage := @set_schedule lib a sch1 s; this_balance := this_balance w |}).
  set (w2 := {| storage := @set_schedule lib a sch2 (storage w1);
                this_balance := this_balance w1 |}).
  assert (Hb : (a =? player1 s) || (a =? player2 s) = true)
    by (apply is_player_test; exact Hpl).
  assert (Hrun1 : run (submitConfirmation env1) w =
                  Return (w1, [Emit (ConfirmationSubmitted a)])).
  { rewrite submitConfirmation_run. cbv zeta. fold s a.
    apply Z.eqb_eq in Hv1. rewrite Hv1, Hb.
    change (AlarmSchedule_recordEntry (block_timestamp env1) (schedule (player_at s a)))
      with (recordConfirmation (block_timestamp env1) sch).
    rewrite (recordConfirmation_open sch _ k Hopen1). reflexivity. }
  assert (Hsch1 : schedule (player_at (storage w1) a) = sch1)
    by apply schedule_set_schedule_eq.
  assert (Hrun2 : run (submitConfirmation env2) w1 =
                  Return (w2, [Emit (ConfirmationSubmitted a)])).
  { rewrite submitConfirmation_run. cbv zeta. rewrite Hsame.
    change (player1 (storage w1)) with (player1 s).
    change (player2 (storage w1)) with (player2 s).
    apply Z.eqb_eq in Hv2. rewrite Hv2, Hb.
    change (AlarmSchedule_recordEntry (block_timestamp env2)
              (schedule (player_at (storage w1) a)))
      with (recordConfirmation (block_timestamp env2) (schedule (player_at (storage w1) a))).
    rewrite Hsch1.
    rewrite (recordConfirmation_open sch1 _ k Hopen2). reflexivity. }
  exists w1, [Emit (ConfirmationSubmitted a)], w2, [Emit (ConfirmationSubmitted a)],
         (confirmedCount sch).
  split; [exact Hrun1|]. split; [exact Hrun2|].
  unfold numConfirmations. cbn [AlarmSchedule_entries lib].
  fold sch. rewrite Hsch1.
  assert (Hsch2 : schedule (player_at (storage w2) a) = sch2)
    by apply schedule_set_schedule_eq.
  rewrite Hsch2.
  assert (H1 : confirmedCount sch1 = confirmedCount sch + 1)
    by (apply confirmedCount_fresh; exact Hfresh).
  assert (H2 : confirmedCount sch2 = confirmedCount sch1).
  { apply confirmedCount_again. cbn [confirmedOccurrences sch1].
    apply elem_of_union_l, elem_of_singleton. reflexivity. }
  rewrite H2, H1. repeat split.
Qed.

End Confirmations.

(** * The creation form *)

Section Readiness.

Import NewAlarm.




End Readiness.

(** * The commitment of Alice and Bob *)

Section Played.

Import Scenario.

Example scenario_A_one_missed :
  missedDeadlines (call alice 0 (clock monday 7 31)) (storage begun) alice = Return 1.
Proof. vm_compute. reflexivity. Qed.

Example scenario_C_payouts :
  seen_at_transfers (fun _ => tt) (snd (result_of (run (withdraw alice_settles) fair)))
    = [(bob, 16, tt); (alice, 4, tt)].
Proof. vm_compute. reflexivity. Qed.

Example scenario_D_capped :
  getPenaltyAmount alice_settles (storage harsh) alice = Return 10.
Proof. vm_compute. reflexivity. Qed.

Lemma fair_funded : funded fair.
Proof. split; vm_compute; [intros H; discriminate H | reflexivity]. Qed.


Lemma fair_active : status (storage fair) = ACTIVE.
Proof. vm_compute. reflexivity. Qed.

Lemma fair_players :
  msg_sender alice_settles = alice /\ other_player alice_settles (storage fair) = bob /\
  deposit_of fair alice = 10 /\ deposit_of fair bob = 10.
Proof. repeat split; vm_compute; reflexivity. Qed.

Lemma fair_settles :
  run (withdraw alice_settles) fair =
    Return (fst (result_of (run (withdraw alice_settles) fair)),
            snd (result_of (run (withdraw alice_settles) fair))).
Proof. apply returned. vm_compute. reflexivity. Qed.

(** Alice settles on Wednesday at 8:00 with a penalty of 3 per miss: the two
    transfers add up to the two stakes of 10. *)
Lemma settlement_zero_sum_witness :
  funded fair /\
  run (withdraw alice_settles) fair =
    Return (fst (result_of (run (withdraw alice_settles) fair)),
            snd (result_of (run (withdraw alice_settles) fair))) /\
  paid_to alice (snd (result_of (run (withdraw alice_settles) fair)))
  + paid_to bob (snd (result_of (run (withdraw alice_settles) fair))) = 10 + 10 /\
  this_balance (fst (result_of (run (withdraw alice_settles) fair))) = 0.
Proof.
  split; [exact fair_funded|]. split; [exact fair_settles|].
  pose proof (settlement_zero_sum alice_settles fair _ _ fair_funded fair_settles) as H.
  destruct fair_players as (Ha & Hb & Hda & Hdb).
  rewrite Ha, Hb, Hda, Hdb in H. exact H.
Defined.

(** The same settlement, payout by payout: Bob receives 10 + 6 - 0 and Alice
    10 - 6 + 0. *)
Lemma settlement_payouts_witness :
  funded fair /\
  status (storage fair) = ACTIVE /\
  run (withdraw alice_settles) fair =
    Return (fst (result_of (run (withdraw alice_settles) fair)),
            snd (result_of (run (withdraw alice_settles) fair))) /\
  exists callerPenalty otherPenalty,
    getPenaltyAmount alice_settles (storage fair) alice = Return callerPenalty /\
    getPenaltyAmount alice_settles (storage fair) bob = Return otherPenalty /\
    paid_to bob (snd (result_of (run (withdraw alice_settles) fair)))
      = 10 + callerPenalty - otherPenalty /\
    paid_to alice (snd (result_of (run (withdraw alice_settles) fair)))
      = 10 - callerPenalty + otherPenalty /\
    deposit_of (fst (result_of (run (withdraw alice_settles) fair))) alice = 0 /\
    deposit_of (fst (result_of (run (withdraw alice_settles) fair))) bob = 0 /\
    status (storage (fst (result_of (run (withdraw alice_settles) fair)))) = CANCELLED.
Proof.
  split; [exact fair_funded|]. split; [exact fair_active|].
  split; [exact fair_settles|].
  pose proof (settlement_payouts alice_settles fair _ _ fair_funded fair_active
                fair_settles) as H.
  cbv zeta in H.
  destruct fair_players as (Ha & Hb & Hda & Hdb).
  rewrite Ha, Hb, Hda, Hdb in H. exact H.
Defined.

(** With a penalty of 10 per miss and two misses, Alice's penalty is her
    whole deposit of 10, not 20. *)
Lemma penalty_capped_witness :
  AlarmSchedule_missedDeadlines (block_timestamp alice_settles)
    (schedule (player_at (storage harsh) alice)) = Return 2 /\
  getPenaltyAmount alice_settles (storage harsh) alice
    = Return (depositAmount (player_at (storage harsh) alice)).
Proof.
  assert (Hn : AlarmSchedule_missedDeadlines (block_timestamp alice_settles)
                 (schedule (player_at (storage harsh) alice)) = Return 2)
    by (vm_compute; reflexivity).
  split; [exact Hn|].
  destruct (penalty_capped_when_product_fits alice_settles (storage harsh) alice 2 Hn)
    as [Hfit _].
  destruct Hfit as [_ Hcap]; [vm_compute; intros E; discriminate E|].
  apply Hcap. vm_compute. reflexivity.
Defined.

(** C2, counterexample. With a penalty of 2^255 per miss and two misses the
    product exceeds Alice's deposit of 10, yet [getPenaltyAmount] does not
    return the deposit: the multiplication overflows and the call reverts. *)
Lemma penalty_overflow_counterexample :
  AlarmSchedule_missedDeadlines (block_timestamp alice_settles)
    (schedule (player_at (storage steep) alice)) = Return 2 /\
  missedAlarmPenalty (storage steep) = 2 ^ 255 /\
  depositAmount (player_at (storage steep) alice) = 10 /\
  getPenaltyAmount alice_settles (storage steep) alice = Revert (Panic PANIC_ARITHMETIC) /\
  getPenaltyAmount alice_settles (storage steep) alice
    <> Return (Z.min (depositAmount (player_at (storage steep) alice))
                     (2 * missedAlarmPenalty (storage steep))).
Proof.
  repeat split; try (vm_compute; reflexivity).
  vm_compute. intros E. discriminate E.
Qed.

(** C10, counterexample. In the same state the balance query returns no
    value at all: it reverts with the arithmetic panic of the penalty. *)
Lemma balance_query_reverts_counterexample :
  getPlayerBalance alice_settles (storage steep) alice = Revert (Panic PANIC_ARITHMETIC) /\
  ~ (exists v, getPlayerBalance alice_settles (storage steep) alice = Return v).
Proof.
  assert (H : getPlayerBalance alice_settles (storage steep) alice
              = Revert (Panic PANIC_ARITHMETIC)) by (vm_compute; reflexivity).
  split; [exact H|]. intros [v Hv]. rewrite H in Hv. discriminate Hv.
Qed.


(** C5, on the code. Alice settles an ACTIVE commitment: both transfers
    leave while the status slot still reads ACTIVE, with the two deposits
    already cleared; the status becomes CANCELLED only after the second
    transfer. *)
Theorem status_written_after_transfers :
  status (storage fair) = ACTIVE /\
  returns (run (withdraw alice_settles) fair) = true /\
  seen_at_transfers
    (fun seen => (status seen, depositAmount (player_at seen alice),
                  depositAmount (player_at seen bob)))
    (snd (result_of (run (withdraw alice_settles) fair)))
    = [(bob, 16, (ACTIVE, 0, 0)); (alice, 4, (ACTIVE, 0, 0))] /\
  status (storage (after (withdraw alice_settles) fair)) = CANCELLED.
Proof. repeat split; vm_compute; reflexivity. Qed.

(** C7, on the code. Alice sends 5 to [addToBalance] naming Bob: her own
    balance goes from 10 to 15 and Bob's stays at 10. *)
Theorem top_up_credits_caller :
  status (storage begun) = ACTIVE /\
  deposit_of begun alice = 10 /\
  deposit_of begun bob = 10 /\
  msg_sender alice_tops_up = alice /\
  msg_value alice_tops_up = 5 /\
  returns (run (addToBalance alice_tops_up bob) begun) = true /\
  deposit_of (after (addToBalance alice_tops_up bob) begun) alice = 15 /\
  deposit_of (after (addToBalance alice_tops_up bob) begun) bob = 10.
Proof. repeat split; vm_compute; reflexivity. Qed.

(** Bob joins on Monday at 6:00 with a stake of 10. *)
Lemma start_guards_witness :
  status (storage waiting) = INACTIVE /\
  msg_sender bob_joins = player2 (storage waiting) /\
  betAmount (storage waiting) <= msg_value bob_joins /\
  exists w' es, run (start bob_joins) waiting = Return (w', es).
Proof.
  assert (Hst : status (storage waiting) = INACTIVE) by (vm_compute; reflexivity).
  assert (Hp2 : msg_sender bob_joins = player2 (storage waiting))
    by (vm_compute; reflexivity).
  assert (Hbet : betAmount (storage waiting) <= msg_value bob_joins)
    by (vm_compute; intros E; discriminate E).
  split; [exact Hst|]. split; [exact Hp2|]. split; [exact Hbet|].
  destruct (start_guards bob_joins waiting) as (_ & _ & _ & _ & Hreturns).
  apply (Hreturns
           (value_or Schedule_zero
              (AlarmSchedule_start (block_timestamp bob_joins)
                 (schedule (player_at (storage waiting) (player1 (storage waiting))))))
           (value_or Schedule_zero
              (AlarmSchedule_start (block_timestamp bob_joins)
                 (schedule (player_at (storage waiting) (player2 (storage waiting))))))).
  - exact Hst.
  - exact Hp2.
  - exact Hbet.
  - vm_compute. intros E. discriminate E.
  - apply returned_value. vm_compute. reflexivity.
  - apply returned_value. vm_compute. reflexivity.
  - vm_compute. intros E. discriminate E.
  - reflexivity.
Defined.

Example start_rejects_second_start :
  failure_of (run (start bob_joins) begun) = Some (RequireFailed "ALREADY_STARTED").
Proof. vm_compute. reflexivity. Qed.

Example start_rejects_small_stake :
  failure_of (run (start (call bob 9 (clock monday 6 0))) waiting)
    = Some (RequireFailed "INSUFFICIENT_FUNDS_SENT").
Proof. vm_compute. reflexivity. Qed.

Example start_rejects_stranger :
  failure_of (run (start (call carol 10 (clock monday 6 0))) waiting)
    = Some (RequireFailed "ONLY_PLAYER_2_CAN_START").
Proof. vm_compute. reflexivity. Qed.

(** With a penalty of 3 per miss Alice's balance reads 10 - 6. *)
Lemma balance_query_witness :
  getPenaltyAmount alice_settles (storage fair) alice = Return 6 /\
  getPlayerBalance alice_settles (storage fair) alice
    = Return (depositAmount (player_at (storage fair) alice) - 6).
Proof.
  assert (H : getPenaltyAmount alice_settles (storage fair) alice = Return 6)
    by (vm_compute; reflexivity).
  split; [exact H|].
  destruct (balance_query_never_underflows alice_settles (storage fair) alice)
    as [Hreturns _].
  exact (proj1 (proj2 (Hreturns 6 H))).
Defined.

(** Bob confirms at 6:40 and again at 6:50 on Monday: one confirmation is
    counted. *)
Lemma confirmation_idempotent_witness :
  SpecSchedule.openOccurrence (schedule (player_at (storage begun) bob))
    (block_timestamp bob_confirms) = Some 4 /\
  SpecSchedule.openOccurrence (schedule (player_at (storage begun) bob))
    (block_timestamp bob_confirms_again) = Some 4 /\
  exists w1 es1 w2 es2 n,
    run (submitConfirmation bob_confirms) begun = Return (w1, es1) /\
    run (submitConfirmation bob_confirms_again) w1 = Return (w2, es2) /\
    numConfirmations (storage begun) bob = Return n /\
    numConfirmations (storage w1) bob = Return (n + 1) /\
    numConfirmations (storage w2) bob = Return (n + 1).
Proof.
  split; [vm_compute; reflexivity|]. split; [vm_compute; reflexivity|].
  apply (confirmation_idempotent bob_confirms bob_confirms_again begun 4).
  - reflexivity.
  - reflexivity.
  - reflexivity.
  - right. vm_compute. reflexivity.
  - vm_compute. reflexivity.
  - vm_compute. reflexivity.
  - vm_compute. intros E. discriminate E.
Defined.

End Played.

Section Filled.

Import NewAlarm.



End Filled.

(** * Conduct of the contract, call by call *)

Section Conduct.

Context `{Lib : AlarmScheduleLib}.

Lemma not_player_test s a :
  ~ is_player s a -> (a =? player1 s) || (a =? player2 s) = false.
Proof.
  intros H. destruct ((a =? player1 s) || (a =? player2 s)) eqn:E; [|reflexivity].
  apply is_player_test in E. contradiction.
Qed.

(** X1. [init] on a fresh clone: it reverts with BET_VALUE_REQUIRED when no
    value is sent and with the library's failure when the schedule is
    refused; when it returns, the commitment is INACTIVE, holds exactly the
    value sent as the initiator's deposit and as [betAmount], names
    [tx.origin] as player1 and the decoded address as player2, whose deposit
    is zero, and both players carry the schedule the library built. *)
Theorem init_establishes env data :
  let made := AlarmSchedule_init (data_alarmTime data) (data_alarmActiveDays data)
                (data_submissionWindow data) (data_timezoneOffset data) in
  (msg_value env <= 0 ->
     deploy env data = Revert (RequireFailed "BET_VALUE_REQUIRED")) /\
  (forall f, 0 < msg_value env -> made = Revert f -> deploy env data = Revert f) /\
  (forall w es,
     deploy env data = Return (w, es) ->
     0 < msg_value env /\ es = [] /\
     status (storage w) = INACTIVE /\
     this_balance w = msg_value env /\
     betAmount (storage w) = msg_value env /\
     player1 (storage w) = tx_origin env /\
     player2 (storage w) = data_player2 data /\
     deploymentHub (storage w) = msg_sender env /\
     missedAlarmPenalty (storage w) = data_missedAlarmPenalty data /\
     alarmDays (storage w) = data_alarmActiveDays data /\
     deposit_of w (tx_origin env) = msg_value env /\
     (tx_origin env <> data_player2 data -> deposit_of w (data_player2 data) = 0) /\
     made = Return (schedule (player_at (storage w) (tx_origin env))) /\
     made = Return (schedule (player_at (storage w) (data_player2 data)))).
Proof.
  intros made. rewrite deploy_run. cbv zeta. fold made. repeat apply conj.
  - intros Hle. rewrite Z.gtb_ltb. apply Z.ltb_ge in Hle. rewrite Hle. reflexivity.
  - intros f Hpos Hf. rewrite Z.gtb_ltb. apply Z.ltb_lt in Hpos. rewrite Hpos.
    rewrite Hf. reflexivity.
  - intros w es H.
    destruct (msg_value env >? 0) eqn:Hpos; [|discriminate H].
    destruct made as [sch|f] eqn:Hmade; [|discriminate H].
    cbn [outcome_bind] in H. injection H as <- <-.
    rewrite Z.gtb_ltb in Hpos. apply Z.ltb_lt in Hpos.
    unfold deposit_of. cbn [storage this_balance].
    rewrite !deposit_set_schedule, deposit_set_depositAmount_eq.
    repeat apply conj; try reflexivity; try assumption.
    + intros Hne. rewrite player_at_set_depositAmount_ne by exact Hne.
      unfold player_at. cbn [players]. rewrite lookup_empty. reflexivity.
    + f_equal. destruct (decide (data_player2 data = tx_origin env)) as [E|Hne].
      * rewrite E. rewrite schedule_set_schedule_eq. reflexivity.
      * rewrite player_at_set_schedule_ne by exact Hne.
        rewrite schedule_set_schedule_eq. reflexivity.
    + f_equal. rewrite schedule_set_schedule_eq. reflexivity.
Qed.

(** X2. An account that is neither player is turned away first of all:
    [addToBalance] (whatever the status, the named player and the value),
    [submitConfirmation] and [withdraw] revert with ONLY_PLAYER_ACTION. *)
Theorem strangers_rejected env w :
  ~ is_player (storage w) (msg_sender env) ->
  (forall player,
     run (addToBalance env player) w = Revert (RequireFailed "ONLY_PLAYER_ACTION")) /\
  (msg_value env = 0 ->
     run (submitConfirmation env) w = Revert (RequireFailed "ONLY_PLAYER_ACTION") /\
     run (withdraw env) w = Revert (RequireFailed "ONLY_PLAYER_ACTION")).
Proof.
  intros Hno. apply not_player_test in Hno. split.
  - intros player. rewrite addToBalance_run. cbv zeta. rewrite Hno. reflexivity.
  - intros Hval. apply Z.eqb_eq in Hval. split.
    + rewrite submitConfirmation_run. cbv zeta. rewrite Hval, Hno. reflexivity.
    + rewrite withdraw_run. cbv zeta. rewrite Hval, Hno. reflexivity.
Qed.

(** X3. [addToBalance] called by a player: it reverts with NOT_ACTIVE unless
    the status is ACTIVE and with INVALID_PLAYER when the named address is
    not a player; when it returns, the caller's deposit and the contract
    balance have grown by the value sent, and every other player record, the
    caller's schedule and the status are as before. *)
Theorem addToBalance_guards env player w :
  is_player (storage w) (msg_sender env) ->
  (status (storage w) <> ACTIVE ->
     run (addToBalance env player) w = Revert (RequireFailed "NOT_ACTIVE")) /\
  (status (storage w) = ACTIVE -> ~ is_player (storage w) player ->
     run (addToBalance env player) w = Revert (RequireFailed "INVALID_PLAYER")) /\
  (forall w' es,
     run (addToBalance env player) w = Return (w', es) ->
     status (storage w) = ACTIVE /\ is_player (storage w) player /\ es = [] /\
     deposit_of w (msg_sender env) + msg_value env <= MAX_UINT /\
     deposit_of w' (msg_sender env) = deposit_of w (msg_sender env) + msg_value env /\
     this_balance w' = this_balance w + msg_value env /\
     schedule (player_at (storage w') (msg_sender env))
       = schedule (player_at (storage w) (msg_sender env)) /\
     (forall a, a <> msg_sender env ->
        player_at (storage w') a = player_at (storage w) a) /\
     status (storage w') = ACTIVE).
Proof.
  intros Hpl. apply is_player_test in Hpl.
  rewrite addToBalance_run. cbv zeta. rewrite Hpl. repeat apply conj.
  - intros Hst. apply status_eqb_neq in Hst. rewrite Hst. reflexivity.
  - intros Hst Hno. apply status_eqb_eq in Hst. rewrite Hst.
    apply not_player_test in Hno. rewrite Hno. reflexivity.
  - intros w' es H.
    destruct (status_eqb (status (storage w)) ACTIVE) eqn:Hst; [|discriminate H].
    destruct ((player =? player1 (storage w)) || (player =? player2 (storage w)))
      eqn:Hnamed; [|discriminate H].
    apply outcome_bind_Return in H as (total & Htotal & H).
    apply checked_add_Return in Htotal as [-> Hfit].
    injection H as <- <-.
    apply status_eqb_eq in Hst. apply is_player_test in Hnamed.
    unfold deposit_of. cbn [storage this_balance].
    rewrite deposit_set_depositAmount_eq, schedule_set_depositAmount.
    repeat apply conj; try reflexivity; try assumption.
    intros a Ha. apply player_at_set_depositAmount_ne. congruence.
Qed.

(** X4. A confirmation moves no money: when [submitConfirmation] returns,
    the caller's schedule is the one [recordEntry] produced, every deposit,
    the contract balance, the status and every other player record are
    unchanged, and the only effect is the event ConfirmationSubmitted; when
    [recordEntry] reverts for a player, the call reverts with the same
    failure. *)
Theorem confirmation_moves_no_money env w :
  (forall w' es,
     run (submitConfirmation env) w = Return (w', es) ->
     is_player (storage w) (msg_sender env) /\
     AlarmSchedule_recordEntry (block_timestamp env)
       (schedule (player_at (storage w) (msg_sender env)))
       = Return (schedule (player_at (storage w') (msg_sender env))) /\
     (forall a, deposit_of w' a = deposit_of w a) /\
     (forall a, a <> msg_sender env ->
        player_at (storage w') a = player_at (storage w) a) /\
     this_balance w' = this_balance w /\
     status (storage w') = status (storage w) /\
     es = [Emit (ConfirmationSubmitted (msg_sender env))]) /\
  (forall f,
     msg_value env = 0 -> is_player (storage w) (msg_sender env) ->
     AlarmSchedule_recordEntry (block_timestamp env)
       (schedule (player_at (storage w) (msg_sender env))) = Revert f ->
     run (submitConfirmation env) w = Revert f).
Proof.
  rewrite submitConfirmation_run. cbv zeta. split.
  - intros w' es H.
    destruct (msg_value env =? 0); [|discriminate H].
    destruct ((msg_sender env =? player1 (storage w))
              || (msg_sender env =? player2 (storage w))) eqn:Hpl; [|discriminate H].
    apply outcome_bind_Return in H as (sch & Hsch & H).
    injection H as <- <-. apply is_player_test in Hpl.
    unfold deposit_of. cbn [storage this_balance].
    rewrite schedule_set_schedule_eq.
    repeat apply conj; try reflexivity; try assumption.
    + intros a. apply deposit_set_schedule.
    + intros a Ha. apply player_at_set_schedule_ne. congruence.
  - intros f Hval Hpl Hf. apply Z.eqb_eq in Hval. apply is_player_test in Hpl.
    rewrite Hval, Hpl, Hf. reflexivity.
Qed.

Lemma withdraw_status env w w' es :
  run (withdraw env) w = Return (w', es) -> status (storage w') = CANCELLED.
Proof.
  intros H. apply withdraw_inv in H. cbv zeta in H.
  destruct H as (_ & _ & cp & op & _ & _ & _ & _ & _ & _ & -> & _). reflexivity.
Qed.

Lemma start_status env w w' es :
  run (start env) w = Return (w', es) ->
  status (storage w) = INACTIVE /\ status (storage w') = ACTIVE /\
  same_terms (storage w) (storage w').
Proof.
  intros H. rewrite start_run in H. cbv zeta in H.
  destruct (status_eqb (status (storage w)) INACTIVE) eqn:Hst; [|discriminate H].
  destruct (msg_value env >=? betAmount (storage w)); [|discriminate H].
  destruct (msg_sender env =? player2 (storage w)); [|discriminate H].
  apply outcome_bind_Return in H as (sch1 & _ & H).
  apply outcome_bind_Return in H as (sch2 & _ & H).
  apply outcome_bind_Return in H as (total & _ & H).
  destruct (hub_responds env); [|discriminate H].
  injection H as <- <-. apply status_eqb_eq in Hst.
  split; [exact Hst|]. split; [reflexivity|].
  unfold same_terms. cbn. repeat split.
Qed.

Lemma addToBalance_status env player w w' es :
  run (addToBalance env player) w = Return (w', es) ->
  status (storage w) = ACTIVE /\ status (storage w') = ACTIVE /\
  same_terms (storage w) (storage w').
Proof.
  intros H. rewrite addToBalance_run in H. cbv zeta in H.
  destruct ((msg_sender env =? player1 (storage w))
            || (msg_sender env =? player2 (storage w))); [|discriminate H].
  destruct (status_eqb (status (storage w)) ACTIVE) eqn:Hst; [|discriminate H].
  destruct ((player =? player1 (storage w)) || (player =? player2 (storage w)));
    [|discriminate H].
  apply outcome_bind_Return in H as (total & _ & H).
  injection H as <- <-. apply status_eqb_eq in Hst.
  split; [exact Hst|]. split; [exact Hst|].
  unfold same_terms. cbn. repeat split.
Qed.

Lemma submitConfirmation_status env w w' es :
  run (submitConfirmation env) w = Return (w', es) ->
  status (storage w') = status (storage w) /\ same_terms (storage w) (storage w').
Proof.
  intros H. rewrite submitConfirmation_run in H. cbv zeta in H.
  destruct (msg_value env =? 0); [|discriminate H].
  destruct ((msg_sender env =? player1 (storage w))
            || (msg_sender env =? player2 (storage w))); [|discriminate H].
  apply outcome_bind_Return in H as (sch & _ & H).
  injection H as <- <-. split; [reflexivity|].
  unfold same_terms. cbn. repeat split.
Qed.

Lemma withdraw_terms env w w' es :
  run (withdraw env) w = Return (w', es) -> same_terms (storage w) (storage w').
Proof.
  intros H. apply withdraw_inv in H. cbv zeta in H.
  destruct H as (_ & _ & cp & op & _ & _ & _ & _ & _ & _ & -> & _).
  unfold same_terms. cbn. repeat split.
Qed.

(** X5. The lifecycle only moves forward.  A returning [start] takes the
    status from INACTIVE to ACTIVE, a returning [addToBalance] finds and
    leaves it ACTIVE, [submitConfirmation] leaves it as it is and [withdraw]
    leaves it CANCELLED; so no call lowers the status, and a CANCELLED
    commitment stays CANCELLED. *)
Theorem status_transitions c env w w' es :
  run (enter c env) w = Return (w', es) ->
  match c with
  | Start => status (storage w) = INACTIVE /\ status (storage w') = ACTIVE
  | AddToBalance _ => status (storage w) = ACTIVE /\ status (storage w') = ACTIVE
  | SubmitConfirmation => status (storage w') = status (storage w)
  | Withdraw => status (storage w') = CANCELLED
  end /\
  status_rank (status (storage w)) <= status_rank (status (storage w')) /\
  (status (storage w) = CANCELLED -> status (storage w') = CANCELLED).
Proof.
  destruct c as [|player| |]; cbn [enter]; intros H.
  - apply start_status in H as (H0 & H1 & _). rewrite H0, H1.
    repeat split; [cbn; lia | discriminate].
  - apply addToBalance_status in H as (H0 & H1 & _). rewrite H0, H1.
    repeat split; [cbn; lia | discriminate].
  - apply submitConfirmation_status in H as (H0 & _). rewrite H0.
    repeat split; [lia | auto].
  - apply withdraw_status in H. rewrite H.
    repeat split. destruct (status (storage w)); cbn; lia.
Qed.

(** X6. The terms are fixed at [init]: no returning call changes the name,
    the hub, the alarm time, the alarm days that [alarmDays()] reports, the
    submission window, the timezone offset, [betAmount], either player or
    the penalty per missed alarm. *)
Theorem terms_immutable c env w w' es :
  run (enter c env) w = Return (w', es) ->
  same_terms (storage w) (storage w').
Proof.
  destruct c as [|player| |]; cbn [enter]; intros H.
  - apply start_status in H as (_ & _ & H). exact H.
  - apply addToBalance_status in H as (_ & _ & H). exact H.
  - apply submitConfirmation_status in H as (_ & H). exact H.
  - apply withdraw_terms in H. exact H.
Qed.

(** X7. A settled commitment cannot be restarted or funded: after a
    returning [withdraw], every [start] reverts with ALREADY_STARTED and
    every [addToBalance] reverts (with NOT_ACTIVE when called by a player,
    with ONLY_PLAYER_ACTION otherwise). *)
Theorem no_restart_after_withdraw env w w' es :
  run (withdraw env) w = Return (w', es) ->
  forall env',
    run (start env') w' = Revert (RequireFailed "ALREADY_STARTED") /\
    (forall player,
       run (addToBalance env' player) w' =
         if (msg_sender env' =? player1 (storage w))
            || (msg_sender env' =? player2 (storage w))
         then Revert (RequireFailed "NOT_ACTIVE")
         else Revert (RequireFailed "ONLY_PLAYER_ACTION")).
Proof.
  intros H env'.
  pose proof (withdraw_status env w w' es H) as Hst.
  pose proof (withdraw_terms env w w' es H) as Hterms.
  destruct Hterms as (_ & _ & _ & _ & _ & _ & _ & Hp1 & Hp2 & _).
  split.
  - rewrite start_run. cbv zeta. rewrite Hst. reflexivity.
  - intros player. rewrite addToBalance_run. cbv zeta.
    rewrite Hst, Hp1, Hp2. cbn [status_eqb].
    destruct ((msg_sender env' =? player1 (storage w))
              || (msg_sender env' =? player2 (storage w))); reflexivity.
Qed.

(** ** Where the money goes *)

Lemma MAX_UINT_nonneg : 0 <= MAX_UINT.
Proof. vm_compute. intros E. discriminate E. Qed.

Lemma total_transferred_withdraw a b x y s1 s2 e :
  total_transferred [Transfer b x s1; Transfer a y s2; Emit e] = x + y.
Proof. cbn [total_transferred]. lia. Qed.

(** X8. [withdraw] always empties the contract: the two transfers add up to
    the whole balance the contract held, whatever the deposits recorded, and
    nothing is left. *)
Theorem withdraw_drains env w w' es :
  run (withdraw env) w = Return (w', es) ->
  total_transferred es = this_balance w /\ this_balance w' = 0.
Proof.
  intros H. apply withdraw_inv in H. cbv zeta in H.
  destruct H as (_ & _ & cp & op & _ & _ & _ & _ & _ & _ & -> & ->).
  rewrite total_transferred_withdraw. split; [lia | reflexivity].
Qed.

(** What each player receives, whatever the status. *)
Lemma withdraw_payouts env w w' es :
  funded w ->
  run (withdraw env) w = Return (w', es) ->
  let caller := msg_sender env in
  let other := other_player env (storage w) in
  other <> caller /\ is_player (storage w) caller /\
  exists cp op,
    applied_penalties env (storage w) = Return (cp, op) /\
    paid_to caller es = deposit_of w caller - cp + op /\
    paid_to other es = deposit_of w other + cp - op.
Proof.
  intros Hf H caller other. apply withdraw_inv in H. cbv zeta in H.
  fold caller other in H.
  destruct H as (_ & Hpl & cp & op & Hpen & _ & _ & _ & _ & _ & _ & ->).
  destruct (other_player_distinct env w Hf Hpl) as [Hne Hsum].
  fold caller other in Hne, Hsum.
  split; [exact Hne|]. split; [exact Hpl|]. exists cp, op. split; [exact Hpen|].
  destruct (paid_to_withdraw caller other
              (depositAmount (player_at (storage w) other) + cp - op)
              (this_balance w - (depositAmount (player_at (storage w) other) + cp - op))
              (set_depositAmount other 0 (set_depositAmount caller 0 (storage w)))
              (set_depositAmount other 0 (set_depositAmount caller 0 (storage w)))
              (StatusChanged (status (storage w)) CANCELLED)) as [Hc Ho];
    [congruence|].
  rewrite Hc, Ho. unfold deposit_of in *. split; lia.
Qed.

Lemma getPenaltyAmount_timestamp env1 env2 s a :
  block_timestamp env1 = block_timestamp env2 ->
  getPenaltyAmount env1 s a = getPenaltyAmount env2 s a.
Proof. intros H. unfold getPenaltyAmount. rewrite H. reflexivity. Qed.

(** X9. The settlement does not depend on who asks for it: in a commitment
    that holds the two stakes, each player receives the same amount whether
    player1 or player2 calls [withdraw] in that block. *)
Theorem settlement_caller_independent env1 env2 w w1 es1 w2 es2 :
  funded w ->
  msg_sender env1 = player1 (storage w) ->
  msg_sender env2 = player2 (storage w) ->
  block_timestamp env1 = block_timestamp env2 ->
  run (withdraw env1) w = Return (w1, es1) ->
  run (withdraw env2) w = Return (w2, es2) ->
  paid_to (player1 (storage w)) es1 = paid_to (player1 (storage w)) es2 /\
  paid_to (player2 (storage w)) es1 = paid_to (player2 (storage w)) es2.
Proof.
  intros Hf Hs1 Hs2 Ht H1 H2.
  pose proof Hf as [Hne _].
  destruct (withdraw_payouts env1 w w1 es1 Hf H1) as (_ & _ & c1 & o1 & Hp1 & Hc1 & Ho1).
  destruct (withdraw_payouts env2 w w2 es2 Hf H2) as (_ & _ & c2 & o2 & Hp2 & Hc2 & Ho2).
  assert (Hother1 : other_player env1 (storage w) = player2 (storage w)).
  { unfold other_player. rewrite Hs1, Z.eqb_refl. reflexivity. }
  assert (Hother2 : other_player env2 (storage w) = player1 (storage w)).
  { unfold other_player. rewrite Hs2.
    assert (E : (player2 (storage w) =? player1 (storage w)) = false)
      by (apply Z.eqb_neq; congruence).
    rewrite E. reflexivity. }
  rewrite Hs1, Hother1 in *. rewrite Hs2, Hother2 in *.
  assert (Hswap : c2 = o1 /\ o2 = c1).
  { unfold applied_penalties in Hp1, Hp2.
    rewrite Hs1, Hother1 in Hp1. rewrite Hs2, Hother2 in Hp2.
    destruct (status_eqb (status (storage w)) ACTIVE).
    - rewrite !(getPenaltyAmount_timestamp env1 env2 _ _ Ht) in Hp1.
      destruct (getPenaltyAmount env2 (storage w) (player1 (storage w))) as [a|f];
        [|discriminate Hp1].
      destruct (getPenaltyAmount env2 (storage w) (player2 (storage w))) as [b|f];
        [|discriminate Hp1].
      cbn [outcome_bind] in Hp1, Hp2.
      injection Hp1 as <- <-. injection Hp2 as <- <-. split; reflexivity.
    - injection Hp1 as <- <-. injection Hp2 as <- <-. split; reflexivity. }
  destruct Hswap as [-> ->]. split; lia.
Qed.

Lemma getPenaltyAmount_nonneg env s a p :
  getPenaltyAmount env s a = Return p ->
  0 <= depositAmount (player_at s a) ->
  0 <= missedAlarmPenalty s ->
  (forall n, AlarmSchedule_missedDeadlines (block_timestamp env)
               (schedule (player_at s a)) = Return n -> 0 <= n) ->
  0 <= p.
Proof.
  unfold getPenaltyAmount. intros H Hdep Hrate Hn.
  destruct (AlarmSchedule_missedDeadlines _ _) as [n|f]; [|discriminate H].
  specialize (Hn n eq_refl). cbn [outcome_bind] in H.
  unfold checked_mul in H.
  destruct (n * missedAlarmPenalty s <=? MAX_UINT); [|discriminate H].
  cbn [outcome_bind] in H.
  destruct (n * missedAlarmPenalty s >? depositAmount (player_at s a));
    injection H as <-; [exact Hdep | nia].
Qed.

Lemma getPenaltyAmount_no_miss env s a :
  AlarmSchedule_missedDeadlines (block_timestamp env) (schedule (player_at s a))
    = Return 0 ->
  0 <= depositAmount (player_at s a) ->
  getPenaltyAmount env s a = Return 0.
Proof.
  intros Hn Hdep.
  rewrite (getPenaltyAmount_returns env s a 0 Hn) by (cbn; apply MAX_UINT_nonneg).
  f_equal. lia.
Qed.

(** X10. Nobody loses more than their own stake, and a player who missed
    nothing loses nothing: in a commitment that holds the two stakes, with
    non-negative deposits, penalty rate and missed counts, each payout of a
    returning [withdraw] lies between zero and the sum of the two deposits,
    and a player with no missed deadline receives at least their own
    deposit. *)
Theorem settlement_bounds env w w' es :
  funded w ->
  run (withdraw env) w = Return (w', es) ->
  let s := storage w in
  let caller := msg_sender env in
  let other := other_player env s in
  0 <= deposit_of w caller ->
  0 <= deposit_of w other ->
  0 <= missedAlarmPenalty s ->
  (forall a n, AlarmSchedule_missedDeadlines (block_timestamp env)
                 (schedule (player_at s a)) = Return n -> 0 <= n) ->
  0 <= paid_to caller es <= deposit_of w caller + deposit_of w other /\
  0 <= paid_to other es <= deposit_of w caller + deposit_of w other /\
  (AlarmSchedule_missedDeadlines (block_timestamp env) (schedule (player_at s caller))
     = Return 0 -> deposit_of w caller <= paid_to caller es) /\
  (AlarmSchedule_missedDeadlines (block_timestamp env) (schedule (player_at s other))
     = Return 0 -> deposit_of w other <= paid_to other es).
Proof.
  intros Hf H s caller other Hdc Hdo Hrate Hmissed.
  destruct (withdraw_payouts env w w' es Hf H) as (_ & _ & cp & op & Hpen & Hc & Ho).
  fold s caller other in Hpen, Hc, Ho. rewrite Hc, Ho.
  unfold deposit_of in *. fold s in Hdc, Hdo |- *.
  unfold applied_penalties in Hpen. fold caller other in Hpen.
  destruct (status_eqb (status s) ACTIVE).
  - apply outcome_bind_Return in Hpen as (cp' & Hcp & Hpen).
    apply outcome_bind_Return in Hpen as (op' & Hop & Hpen).
    injection Hpen as -> ->.
    pose proof (getPenaltyAmount_le_deposit env s caller cp Hcp) as Hcle.
    pose proof (getPenaltyAmount_le_deposit env s other op Hop) as Hole.
    pose proof (getPenaltyAmount_nonneg env s caller cp Hcp Hdc Hrate
                  (Hmissed caller)) as Hc0.
    pose proof (getPenaltyAmount_nonneg env s other op Hop Hdo Hrate
                  (Hmissed other)) as Ho0.
    repeat split; try lia.
    + intros Hnone. rewrite (getPenaltyAmount_no_miss env s caller Hnone Hdc) in Hcp.
      injection Hcp as <-. lia.
    + intros Hnone. rewrite (getPenaltyAmount_no_miss env s other Hnone Hdo) in Hop.
      injection Hop as <-. lia.
  - injection Hpen as <- <-. repeat split; lia.
Qed.

(** X11. A penalty too large to compute locks the settlement: in an ACTIVE
    commitment, when either player's missed count times the penalty rate
    exceeds the largest uint256, [withdraw] called by a player reverts with
    the arithmetic panic instead of paying out. *)
Theorem withdraw_locked_by_overflow env w ns no :
  let s := storage w in
  status s = ACTIVE ->
  msg_value env = 0 ->
  is_player s (msg_sender env) ->
  AlarmSchedule_missedDeadlines (block_timestamp env)
    (schedule (player_at s (msg_sender env))) = Return ns ->
  AlarmSchedule_missedDeadlines (block_timestamp env)
    (schedule (player_at s (other_player env s))) = Return no ->
  MAX_UINT < ns * missedAlarmPenalty s \/ MAX_UINT < no * missedAlarmPenalty s ->
  run (withdraw env) w = Revert (Panic PANIC_ARITHMETIC).
Proof.
  intros s Hst Hval Hpl Hns Hno Hover.
  rewrite withdraw_run. cbv zeta. fold s.
  apply Z.eqb_eq in Hval. rewrite Hval.
  apply is_player_test in Hpl. rewrite Hpl.
  unfold applied_penalties. fold s. rewrite Hst. cbn [status_eqb].
  destruct (Z_le_gt_dec (ns * missedAlarmPenalty s) MAX_UINT) as [Hfit|Hbig].
  - rewrite (getPenaltyAmount_returns env s _ ns Hns Hfit). cbn [outcome_bind].
    destruct Hover as [Hover|Hover]; [lia|].
    rewrite (getPenaltyAmount_overflows env s _ no Hno Hover). reflexivity.
  - rewrite (getPenaltyAmount_overflows env s _ ns Hns) by lia. reflexivity.
Qed.

Lemma withdraw_clears env w w' es :
  funded w ->
  run (withdraw env) w = Return (w', es) ->
  deposit_of w' (player1 (storage w)) = 0 /\
  deposit_of w' (player2 (storage w)) = 0 /\
  this_balance w' = 0.
Proof.
  intros Hf H.
  pose proof (withdraw_funded env w w' es Hf H) as [_ Hbal'].
  pose proof (withdraw_terms env w w' es H)
    as (_ & _ & _ & _ & _ & _ & _ & Hp1 & Hp2 & _).
  apply withdraw_inv in H. cbv zeta in H.
  destruct H as (_ & Hpl & cp & op & _ & _ & _ & _ & _ & _ & -> & _).
  destruct (other_player_distinct env w Hf Hpl) as [Hother _].
  destruct Hf as [Hne _].
  unfold deposit_of in *. cbn [storage this_balance] in *.
  rewrite !player_at_set_status in *.
  assert (Hzero : forall a, is_player (storage w) a ->
            depositAmount (player_at
              (set_depositAmount (other_player env (storage w)) 0
                 (set_depositAmount (msg_sender env) 0 (storage w))) a) = 0).
  { intros a Ha.
    destruct (decide (other_player env (storage w) = a)) as [<-|Hd].
    - apply deposit_set_depositAmount_eq.
    - rewrite player_at_set_depositAmount_ne by exact Hd.
      assert (a = msg_sender env) as ->.
      { unfold other_player in *. unfold is_player in *.
        destruct (msg_sender env =? player1 (storage w)) eqn:E.
        - apply Z.eqb_eq in E. destruct Ha; congruence.
        - apply Z.eqb_neq in E. destruct Ha, Hpl; congruence. }
      apply deposit_set_depositAmount_eq. }
  rewrite !Hzero by (unfold is_player; auto). repeat split.
Qed.

(** X12. Settling twice pays once: after a returning [withdraw] on a
    commitment that held the two stakes, a further [withdraw] by either
    player returns again and transfers nothing to anyone. *)
Theorem second_withdraw_pays_nothing env env' w w' es :
  funded w ->
  run (withdraw env) w = Return (w', es) ->
  msg_value env' = 0 ->
  is_player (storage w) (msg_sender env') ->
  accepts_transfer env' (player1 (storage w)) = true ->
  accepts_transfer env' (player2 (storage w)) = true ->
  exists w'' es',
    run (withdraw env') w' = Return (w'', es') /\
    total_transferred es' = 0 /\
    (forall a, paid_to a es' = 0) /\
    this_balance w'' = 0 /\
    status (storage w'') = CANCELLED.
Proof.
  intros Hf H Hval Hpl Hacc1 Hacc2.
  pose proof (withdraw_clears env w w' es Hf H) as (Hz1 & Hz2 & Hbal).
  pose proof (withdraw_status env w w' es H) as Hst.
  pose proof (withdraw_terms env w w' es H)
    as (_ & _ & _ & _ & _ & _ & _ & Hp1 & Hp2 & _).
  assert (Hpl' : is_player (storage w') (msg_sender env'))
    by (unfold is_player in *; rewrite Hp1, Hp2; exact Hpl).
  assert (Hpen : applied_penalties env' (storage w') = Return (0, 0))
    by (unfold applied_penalties; rewrite Hst; reflexivity).
  assert (Hother : other_player env' (storage w') = player1 (storage w)
                   \/ other_player env' (storage w') = player2 (storage w)).
  { unfold other_player. rewrite Hp1, Hp2.
    destruct (msg_sender env' =? player1 (storage w)); auto. }
  assert (Hdo : depositAmount (player_at (storage w') (other_player env' (storage w'))) = 0).
  { unfold deposit_of in Hz1, Hz2. destruct Hother as [-> | ->]; assumption. }
  pose proof MAX_UINT_nonneg as Hmax.
  destruct (withdraw_returns env' w' 0 0 Hval Hpl' Hpen) as (w'' & es' & Hrun);
    try (rewrite Hdo; lia).
  { destruct Hother as [-> | ->]; assumption. }
  { destruct Hpl as [-> | ->]; assumption. }
  exists w'', es'. split; [exact Hrun|].
  pose proof (withdraw_status env' w' w'' es' Hrun) as Hst''.
  apply withdraw_inv in Hrun. cbv zeta in Hrun.
  destruct Hrun as (_ & _ & cp & op & Hpen' & _ & _ & _ & _ & _ & Hw'' & ->).
  rewrite Hpen in Hpen'. injection Hpen' as <- <-.
  rewrite Hdo, Hbal. cbn [total_transferred paid_to].
  repeat split.
  - intros a. destruct (_ =? a), (_ =? a); reflexivity.
  - rewrite Hw''. reflexivity.
  - exact Hst''.
Qed.

Lemma deploy_counterparty_zero env data w es :
  tx_origin env <> data_player2 data ->
  deploy env data = Return (w, es) ->
  deposit_of w (player2 (storage w)) = 0.
Proof.
  intros Hne H. rewrite deploy_run in H.
  destruct (msg_value env >? 0); [|discriminate H].
  apply outcome_bind_Return in H as (sch & _ & H). cbv zeta in H.
  injection H as <- <-. unfold deposit_of. cbn [storage].
  change (player2 (set_schedule _ _ _)) with (data_player2 data).
  rewrite !deposit_set_schedule.
  rewrite player_at_set_depositAmount_ne by exact Hne.
  unfold player_at. cbn [players]. rewrite lookup_empty. reflexivity.
Qed.

Lemma submitConfirmation_money env w w' es :
  run (submitConfirmation env) w = Return (w', es) ->
  (forall a, deposit_of w' a = deposit_of w a) /\ this_balance w' = this_balance w.
Proof.
  intros H. rewrite submitConfirmation_run in H. cbv zeta in H.
  destruct (msg_value env =? 0); [|discriminate H].
  destruct ((msg_sender env =? player1 (storage w))
            || (msg_sender env =? player2 (storage w))); [|discriminate H].
  apply outcome_bind_Return in H as (sch & _ & H).
  injection H as <- <-. unfold deposit_of. cbn [storage this_balance].
  split; [intros a; apply deposit_set_schedule | reflexivity].
Qed.

(** X13. What a commitment between two distinct players holds, in every
    world it can reach: the contract balance is the sum of the two recorded
    deposits; while INACTIVE, [betAmount] is the initiator's deposit and the
    counterparty has none; once CANCELLED, both deposits and the contract
    balance are zero. *)
Theorem reachable_holdings w :
  reachable w ->
  let s := storage w in
  funded w /\
  (status s = INACTIVE ->
     betAmount s = deposit_of w (player1 s) /\ deposit_of w (player2 s) = 0) /\
  (status s = CANCELLED ->
     deposit_of w (player1 s) = 0 /\ deposit_of w (player2 s) = 0 /\
     this_balance w = 0).
Proof.
  induction 1 as [env data w es Hne H | env w w' es Hr IH H
                 | env player w w' es Hr IH H | env w w' es Hr IH H
                 | env w w' es Hr IH H]; cbv zeta in *.
  - destruct (deploy_funded env data w es Hne H) as (Hf & Hst & Hbet).
    split; [exact Hf|]. split.
    + intros _. split; [exact Hbet|].
      exact (deploy_counterparty_zero env data w es Hne H).
    + intros E. rewrite Hst in E. discriminate E.
  - destruct IH as (Hf & _ & _).
    destruct (start_status env w w' es H) as (_ & Hst & _).
    split; [exact (start_funded env w w' es Hf H)|].
    split; intros E; rewrite Hst in E; discriminate E.
  - destruct IH as (Hf & _ & _).
    destruct (addToBalance_status env player w w' es H) as (_ & Hst & _).
    split; [exact (addToBalance_funded env player w w' es Hf H)|].
    split; intros E; rewrite Hst in E; discriminate E.
  - destruct IH as (Hf & Hin & Hcan).
    destruct (submitConfirmation_status env w w' es H)
      as (Hst & _ & _ & _ & _ & _ & _ & Hbet & Hp1 & Hp2 & _).
    destruct (submitConfirmation_money env w w' es H) as (Hdep & Hbal).
    split; [exact (submitConfirmation_funded env w w' es Hf H)|].
    rewrite Hst, Hbet, Hp1, Hp2, Hbal, !Hdep. split; assumption.
  - destruct IH as (Hf & _ & _).
    pose proof (withdraw_status env w w' es H) as Hst.
    pose proof (withdraw_terms env w w' es H)
      as (_ & _ & _ & _ & _ & _ & _ & Hp1 & Hp2 & _).
    split; [exact (withdraw_funded env w w' es Hf H)|]. split.
    + intros E. rewrite Hst in E. discriminate E.
    + intros _. rewrite Hp1, Hp2. exact (withdraw_clears env w w' es Hf H).
Qed.

(** ** Calls to the outside *)

(** X18. [start] depends on the hub and calls it before the commitment is
    ACTIVE: when it returns, its effects are exactly one call of
    [emitUserJoined] for player2, made after the deposit was recorded and
    while the status slot still read INACTIVE, followed by the event
    CommitmentInitialized; when the hub's call fails, [start] reverts. *)
Theorem start_notifies_hub env w :
  (forall w' es,
     run (start env) w = Return (w', es) ->
     hub_responds env = true /\
     exists seen,
       es = [HubUserJoined (player2 (storage w)) seen;
             Emit (CommitmentInitialized "Alarm Bet Started")] /\
       status seen = INACTIVE /\
       depositAmount (player_at seen (player2 (storage w)))
         = deposit_of w' (player2 (storage w)) /\
       storage w' = set_status ACTIVE seen) /\
  (hub_responds env = false -> returns (run (start env) w) = false).
Proof.
  rewrite start_run. cbv zeta. split.
  - intros w' es H.
    destruct (status_eqb (status (storage w)) INACTIVE) eqn:Hst; [|discriminate H].
    destruct (msg_value env >=? betAmount (storage w)); [|discriminate H].
    destruct (msg_sender env =? player2 (storage w)); [|discriminate H].
    apply outcome_bind_Return in H as (sch1 & _ & H).
    apply outcome_bind_Return in H as (sch2 & _ & H).
    apply outcome_bind_Return in H as (total & _ & H).
    destruct (hub_responds env); [|discriminate H].
    injection H as <- <-. split; [reflexivity|].
    eexists. split; [reflexivity|].
    apply status_eqb_eq in Hst.
    unfold deposit_of. cbn [storage]. rewrite player_at_set_status.
    repeat split. exact Hst.
  - intros Hhub. rewrite Hhub.
    destruct (status_eqb (status (storage w)) INACTIVE); [|reflexivity].
    destruct (msg_value env >=? betAmount (storage w)); [|reflexivity].
    destruct (msg_sender env =? player2 (storage w)); [|reflexivity].
    destruct (AlarmSchedule_start _ _); [|reflexivity]. cbn [outcome_bind].
    destruct (AlarmSchedule_start _ _); [|reflexivity]. cbn [outcome_bind].
    destruct (checked_add _ _); reflexivity.
Qed.

(** X19. The settlement pushes both payments in one call, so either
    receiver can block it: when the caller's or the other player's account
    does not accept its transfer, [withdraw] does not return, and neither
    player is paid. *)
Theorem refusing_receiver_blocks_settlement env w :
  accepts_transfer env (msg_sender env) = false \/
  accepts_transfer env (other_player env (storage w)) = false ->
  returns (run (withdraw env) w) = false.
Proof.
  intros Hrefuse.
  destruct (run (withdraw env) w) as [[w' es]|f] eqn:H; [|reflexivity].
  apply withdraw_inv in H. cbv zeta in H.
  destruct H as (_ & _ & cp & op & _ & _ & _ & _ & Hother & Hcaller & _).
  destruct Hrefuse as [E|E]; congruence.
Qed.


End Conduct.

(** * The status and the two calls it was to gate *)

Section Gates.






End Gates.

(** * The form: readiness and the alarm time *)

Section Form.

Import Ascii.
Import NewAlarm.
Import TimeString.

Lemma positive_js_gt a : positive a -> js_gt a 0 = true.
Proof.
  destruct a as [q| | |]; simpl; intros H; try contradiction; try reflexivity.
  unfold Qltb. destruct (Qle_bool q 0) eqn:E; [|reflexivity].
  apply Qle_bool_iff in E. exfalso. exact (Qlt_not_le _ _ H E).
Qed.

Lemma within_js a lo hi : within lo hi a -> js_ge a lo && js_le a hi = true.
Proof.
  destruct a as [q| | |]; simpl; intros H; try contradiction.
  destruct H as [H1 H2]. apply andb_true_iff.
  split; apply Qle_bool_iff; assumption.
Qed.

(** X14. [isReady] is true whenever every creation parameter is valid: an
    account with a non-empty address, a positive submission window, another
    player distinct from that address, at least one alarm day and each
    within 1..7, a non-empty alarm time, a positive deposit and penalty, and
    a confirmed timezone offset within -12..12.  These are all the
    conditions it tests. *)
Theorem isReady_when_valid (p : BundledParams) acc addr :
  account p = Some acc ->
  address acc = Some addr ->
  addr <> ""%string ->
  positive (submissionWindow p) ->
  otherPlayer p <> addr ->
  alarmDays p <> [] ->
  Forall (within 1 7) (alarmDays p) ->
  alarmTime p <> ""%string ->
  positive (deposit p) ->
  positive (missedAlarmPenalty p) ->
  timezoneOffsetConfirmed p = true ->
  within (-12) 12 (timezoneOffset p) ->
  isReady p = true.
Proof.
  intros Hacc Haddr Hne Hwin Hother Hdays Hrange Htime Hdep Hpen Hconf Htz.
  unfold isReady. rewrite Hacc, Haddr.
  assert (H1 : truthy addr = true).
  { unfold truthy. apply negb_true_iff. apply String.eqb_neq. exact Hne. }
  assert (H2 : negb (String.eqb (otherPlayer p) addr) = true).
  { apply negb_true_iff. apply String.eqb_neq. exact Hother. }
  assert (H3 : (0 <? List.length (alarmDays p))%nat = true).
  { destruct (alarmDays p); [contradiction | reflexivity]. }
  assert (H4 : forallb (fun day => js_ge day 1 && js_le day 7) (alarmDays p) = true).
  { apply forallb_forall. intros day Hin. apply within_js.
    rewrite Forall_forall in Hrange. apply Hrange. apply list_elem_of_In. exact Hin. }
  assert (H5 : (0 <? String.length (alarmTime p))%nat = true).
  { destruct (alarmTime p); [contradiction | reflexivity]. }
  apply within_js in Htz. apply andb_true_iff in Htz as [Hlo Hhi].
  rewrite H1, (positive_js_gt _ Hwin), H2, H3, H4, H5,
    (positive_js_gt _ Hdep), (positive_js_gt _ Hpen), Hconf, Hlo, Hhi.
  reflexivity.
Qed.

(** X15. [isReady] looks at the alarm time only to see that it is not
    empty: replacing one non-empty time text by any other leaves readiness
    as it was, whether or not the text is a time. *)
Theorem isReady_ignores_time_format (p : BundledParams) (t : string) :
  alarmTime p <> ""%string ->
  t <> ""%string ->
  isReady (with_alarmTime t p) = isReady p.
Proof.
  intros Hp Ht. unfold isReady, with_alarmTime. cbn.
  destruct (account p) as [acc|]; [|reflexivity].
  destruct (address acc) as [addr|]; [|reflexivity].
  destruct (alarmTime p); [contradiction|].
  destruct t; [contradiction|]. reflexivity.
Qed.

Lemma Num_eqb_eq a b : Num_eqb a b = true -> a = b.
Proof.
  destruct a, b; simpl; intros H; try discriminate H; try reflexivity.
  apply Z.eqb_eq in H. rewrite H. reflexivity.
Qed.

Lemma time_texts_checked :
  forallb (fun h =>
    forallb (fun m =>
      Num_eqb (timeStringToSeconds (time_text (Z.of_nat h) (Z.of_nat m)))
              (Int (Z.of_nat h * 3600 + Z.of_nat m * 60)))
      (seq 0 60)) (seq 0 24) = true.
Proof. vm_compute. reflexivity. Qed.

(** X16. For the text of a time of day, two digits of hours below 24, a
    colon and two digits of minutes below 60, [timeStringToSeconds] is the
    number of seconds since midnight, below one day. *)
Theorem timeStringToSeconds_of_time_text (h m : Z) :
  0 <= h < 24 ->
  0 <= m < 60 ->
  timeStringToSeconds (time_text h m) = Int (h * 3600 + m * 60) /\
  0 <= h * 3600 + m * 60 < 86400.
Proof.
  intros Hh Hm. split; [|lia].
  pose proof time_texts_checked as H.
  rewrite forallb_forall in H.
  specialize (H (Z.to_nat h)).
  rewrite forallb_forall in H.
  assert (Hin : In (Z.to_nat h) (seq 0 24)) by (apply in_seq; lia).
  specialize (H Hin (Z.to_nat m)).
  assert (Hin' : In (Z.to_nat m) (seq 0 60)) by (apply in_seq; lia).
  specialize (H Hin'). apply Num_eqb_eq in H.
  rewrite !Z2Nat.id in H by lia. exact H.
Qed.

Lemma split_without_separator sep s :
  contains sep s = false -> split sep s = [s].
Proof.
  induction s as [|c s IH]; simpl; intros H; [reflexivity|].
  apply orb_false_iff in H as [Hc Hs]. rewrite Hc, (IH Hs). reflexivity.
Qed.

(** X17. Without a colon there are no minutes: for every text that holds no
    ":", whatever else it holds, [timeStringToSeconds] is NaN. *)
Theorem timeStringToSeconds_without_colon (t : string) :
  contains ":" t = false ->
  timeStringToSeconds t = NotANumber.
Proof.
  intros H. unfold timeStringToSeconds.
  rewrite (split_without_separator _ _ H). cbn [nth_error parseInt_element].
  destruct (mul (parseInt t) (Int 3600)) as [z| |];
    cbn [add mul]; try reflexivity.
  destruct (exact (0 + z)); reflexivity.
Qed.

(** The form filled in is ready. *)
Lemma isReady_when_valid_witness : isReady filled = true.
Proof.
  apply (isReady_when_valid filled
           {| address := Some "0xA11CE"%string; isConnected := true |} "0xA11CE").
  - reflexivity.
  - reflexivity.
  - intros E. discriminate E.
  - reflexivity.
  - intros E. discriminate E.
  - intros E. discriminate E.
  - repeat constructor; intros E; discriminate E.
  - intros E. discriminate E.
  - reflexivity.
  - reflexivity.
  - reflexivity.
  - split; intros E; discriminate E.
Defined.

(** The form stays ready with "soon" as its alarm time. *)
Lemma isReady_ignores_time_format_witness :
  alarmTime filled <> ""%string /\
  isReady (with_alarmTime "soon" filled) = isReady filled.
Proof.
  assert (H : alarmTime filled <> ""%string) by (intros E; discriminate E).
  split; [exact H|].
  apply (isReady_ignores_time_format filled "soon" H). intros E. discriminate E.
Defined.

(** Half past seven is 27000 seconds. *)
Lemma timeStringToSeconds_of_time_text_witness :
  timeStringToSeconds (time_text 7 30) = Int (7 * 3600 + 30 * 60) /\
  0 <= 7 * 3600 + 30 * 60 < 86400.
Proof. apply timeStringToSeconds_of_time_text; lia. Defined.

(** "0730" has no colon. *)
Lemma timeStringToSeconds_without_colon_witness :
  contains ":" "0730" = false /\ timeStringToSeconds "0730" = NotANumber.
Proof.
  split; [reflexivity|].
  apply timeStringToSeconds_without_colon. reflexivity.
Defined.

End Form.

(** * Alice and Bob, call by call *)

Section Conducted.

Import Scenario.

Lemma spec_missed_nonneg now (sch : Schedule) n :
  AlarmSchedule_missedDeadlines now sch = Return n -> 0 <= n.
Proof.
  cbn [AlarmSchedule_missedDeadlines SpecSchedule.lib]. intros [= <-].
  unfold SpecSchedule.missedCount. destruct (SpecSchedule.startTime sch); lia.
Qed.

Lemma founding_returns :
  deploy founding (terms 3) =
    Return (founded, snd (result_of (deploy founding (terms 3)))).
Proof. apply returned. vm_compute. reflexivity. Qed.

Lemma founded_reachable : reachable founded.
Proof.
  apply (reach_deploy founding (terms 3) founded
           (snd (result_of (deploy founding (terms 3))))).
  - vm_compute. intros E. discriminate E.
  - exact founding_returns.
Qed.

Lemma begun_active : status (storage begun) = ACTIVE.
Proof. vm_compute. reflexivity. Qed.

Lemma alice_plays_begun : is_player (storage begun) alice.
Proof. left. vm_compute. reflexivity. Qed.

Lemma alice_plays_fair : is_player (storage fair) alice.
Proof. left. vm_compute. reflexivity. Qed.

Lemma bob_plays_fair : is_player (storage fair) bob.
Proof. right. vm_compute. reflexivity. Qed.

Lemma bob_settles_fair :
  run (withdraw bob_settles) fair =
    Return (fst (result_of (run (withdraw bob_settles) fair)),
            snd (result_of (run (withdraw bob_settles) fair))).
Proof. apply returned. vm_compute. reflexivity. Qed.

(** The deployment of Monday at 5:00. *)
Lemma init_establishes_witness :
  status (storage founded) = INACTIVE /\
  this_balance founded = msg_value founding /\
  deposit_of founded (tx_origin founding) = msg_value founding /\
  deposit_of founded (data_player2 (terms 3)) = 0.
Proof.
  destruct (init_establishes founding (terms 3)) as (_ & _ & H).
  destruct (H founded _ founding_returns)
    as (_ & _ & Hst & Hbal & _ & _ & _ & _ & _ & _ & Hd1 & Hd2 & _).
  split; [exact Hst|]. split; [exact Hbal|]. split; [exact Hd1|].
  apply Hd2. vm_compute. intros E. discriminate E.
Defined.

(** Carol is turned away. *)
Lemma strangers_rejected_witness :
  ~ is_player (storage begun) (msg_sender carol_meddles) /\
  run (withdraw carol_meddles) begun = Revert (RequireFailed "ONLY_PLAYER_ACTION") /\
  run (addToBalance carol_meddles alice) begun
    = Revert (RequireFailed "ONLY_PLAYER_ACTION").
Proof.
  assert (H : ~ is_player (storage begun) (msg_sender carol_meddles)).
  { intros [E|E]; vm_compute in E; discriminate E. }
  split; [exact H|].
  destruct (strangers_rejected carol_meddles begun H) as [Hadd Hrest].
  split; [exact (proj2 (Hrest eq_refl)) | exact (Hadd alice)].
Defined.

Lemma alice_tops_up_returns :
  run (addToBalance alice_tops_up bob) begun =
    Return (fst (result_of (run (addToBalance alice_tops_up bob) begun)),
            snd (result_of (run (addToBalance alice_tops_up bob) begun))).
Proof. apply returned. vm_compute. reflexivity. Qed.

(** Alice's top-up of 5 on Monday at 8:00. *)
Lemma addToBalance_guards_witness :
  is_player (storage begun) (msg_sender alice_tops_up) /\
  this_balance (fst (result_of (run (addToBalance alice_tops_up bob) begun)))
    = this_balance begun + msg_value alice_tops_up /\
  deposit_of (fst (result_of (run (addToBalance alice_tops_up bob) begun)))
    (msg_sender alice_tops_up)
    = deposit_of begun (msg_sender alice_tops_up) + msg_value alice_tops_up.
Proof.
  split; [exact alice_plays_begun|].
  destruct (addToBalance_guards alice_tops_up bob begun alice_plays_begun)
    as (_ & _ & H).
  destruct (H _ _ alice_tops_up_returns) as (_ & _ & _ & _ & Hdep & Hbal & _).
  split; [exact Hbal | exact Hdep].
Defined.

Lemma bob_confirms_returns :
  run (submitConfirmation bob_confirms) begun =
    Return (fst (result_of (run (submitConfirmation bob_confirms) begun)),
            snd (result_of (run (submitConfirmation bob_confirms) begun))).
Proof. apply returned. vm_compute. reflexivity. Qed.

(** Bob's confirmation of Monday at 6:40. *)
Lemma confirmation_moves_no_money_witness :
  this_balance (fst (result_of (run (submitConfirmation bob_confirms) begun)))
    = this_balance begun /\
  (forall a,
     deposit_of (fst (result_of (run (submitConfirmation bob_confirms) begun))) a
       = deposit_of begun a).
Proof.
  destruct (confirmation_moves_no_money bob_confirms begun) as [H _].
  destruct (H _ _ bob_confirms_returns) as (_ & _ & Hdep & _ & Hbal & _).
  split; [exact Hbal | exact Hdep].
Defined.

(** Alice's settlement of Wednesday at 8:00 ends the commitment. *)
Lemma status_transitions_witness :
  run (enter Withdraw alice_settles) fair =
    Return (fst (result_of (run (withdraw alice_settles) fair)),
            snd (result_of (run (withdraw alice_settles) fair))) /\
  status (storage (fst (result_of (run (withdraw alice_settles) fair)))) = CANCELLED.
Proof.
  split; [exact fair_settles|].
  exact (proj1 (status_transitions Withdraw alice_settles fair _ _ fair_settles)).
Defined.

Lemma bob_joins_returns :
  run (start bob_joins) waiting =
    Return (fst (result_of (run (start bob_joins) waiting)),
            snd (result_of (run (start bob_joins) waiting))).
Proof. apply returned. vm_compute. reflexivity. Qed.

(** Bob's joining leaves the terms as Alice set them. *)
Lemma terms_immutable_witness :
  run (enter Start bob_joins) waiting =
    Return (fst (result_of (run (start bob_joins) waiting)),
            snd (result_of (run (start bob_joins) waiting))) /\
  same_terms (storage waiting)
    (storage (fst (result_of (run (start bob_joins) waiting)))).
Proof.
  split; [exact bob_joins_returns|].
  exact (terms_immutable Start bob_joins waiting _ _ bob_joins_returns).
Defined.

(** After Alice's settlement Bob cannot start the commitment again. *)
Lemma no_restart_after_withdraw_witness :
  run (withdraw alice_settles) fair =
    Return (fst (result_of (run (withdraw alice_settles) fair)),
            snd (result_of (run (withdraw alice_settles) fair))) /\
  run (start bob_joins) (fst (result_of (run (withdraw alice_settles) fair)))
    = Revert (RequireFailed "ALREADY_STARTED").
Proof.
  split; [exact fair_settles|].
  exact (proj1 (no_restart_after_withdraw alice_settles fair _ _ fair_settles bob_joins)).
Defined.

(** Alice's settlement transfers all the contract held. *)
Lemma withdraw_drains_witness :
  run (withdraw alice_settles) fair =
    Return (fst (result_of (run (withdraw alice_settles) fair)),
            snd (result_of (run (withdraw alice_settles) fair))) /\
  total_transferred (snd (result_of (run (withdraw alice_settles) fair)))
    = this_balance fair /\
  this_balance (fst (result_of (run (withdraw alice_settles) fair))) = 0.
Proof.
  split; [exact fair_settles|].
  exact (withdraw_drains alice_settles fair _ _ fair_settles).
Defined.

(** Whether Alice or Bob settles on Wednesday at 8:00, each receives the
    same. *)
Lemma settlement_caller_independent_witness :
  funded fair /\
  msg_sender alice_settles = player1 (storage fair) /\
  msg_sender bob_settles = player2 (storage fair) /\
  paid_to (player1 (storage fair)) (snd (result_of (run (withdraw alice_settles) fair)))
    = paid_to (player1 (storage fair)) (snd (result_of (run (withdraw bob_settles) fair))) /\
  paid_to (player2 (storage fair)) (snd (result_of (run (withdraw alice_settles) fair)))
    = paid_to (player2 (storage fair)) (snd (result_of (run (withdraw bob_settles) fair))).
Proof.
  assert (H1 : msg_sender alice_settles = player1 (storage fair))
    by (vm_compute; reflexivity).
  assert (H2 : msg_sender bob_settles = player2 (storage fair))
    by (vm_compute; reflexivity).
  split; [exact fair_funded|]. split; [exact H1|]. split; [exact H2|].
  exact (settlement_caller_independent alice_settles bob_settles fair _ _ _ _
           fair_funded H1 H2 eq_refl fair_settles bob_settles_fair).
Defined.

(** Bob, who missed nothing, receives at least his deposit. *)
Lemma settlement_bounds_witness :
  funded fair /\
  0 <= missedAlarmPenalty (storage fair) /\
  AlarmSchedule_missedDeadlines (block_timestamp alice_settles)
    (schedule (player_at (storage fair) (other_player alice_settles (storage fair))))
    = Return 0 /\
  deposit_of fair (other_player alice_settles (storage fair))
    <= paid_to (other_player alice_settles (storage fair))
         (snd (result_of (run (withdraw alice_settles) fair))).
Proof.
  assert (Hrate : 0 <= missedAlarmPenalty (storage fair))
    by (vm_compute; intros E; discriminate E).
  assert (Hnone : AlarmSchedule_missedDeadlines (block_timestamp alice_settles)
            (schedule (player_at (storage fair) (other_player alice_settles (storage fair))))
            = Return 0) by (vm_compute; reflexivity).
  split; [exact fair_funded|]. split; [exact Hrate|]. split; [exact Hnone|].
  assert (Hdc : 0 <= deposit_of fair (msg_sender alice_settles))
    by (vm_compute; intros E; discriminate E).
  assert (Hdo : 0 <= deposit_of fair (other_player alice_settles (storage fair)))
    by (vm_compute; intros E; discriminate E).
  destruct (settlement_bounds alice_settles fair _ _ fair_funded fair_settles
              Hdc Hdo Hrate
              (fun a n => spec_missed_nonneg (block_timestamp alice_settles)
                            (schedule (player_at (storage fair) a)) n))
    as (_ & _ & _ & Hother).
  exact (Hother Hnone).
Defined.

(** With a penalty of 2^255 per miss and Alice's two misses, nobody can
    settle. *)
Lemma withdraw_locked_by_overflow_witness :
  status (storage steep) = ACTIVE /\
  AlarmSchedule_missedDeadlines (block_timestamp alice_settles)
    (schedule (player_at (storage steep) (msg_sender alice_settles))) = Return 2 /\
  MAX_UINT < 2 * missedAlarmPenalty (storage steep) /\
  run (withdraw alice_settles) steep = Revert (Panic PANIC_ARITHMETIC).
Proof.
  assert (Hst : status (storage steep) = ACTIVE) by (vm_compute; reflexivity).
  assert (Hns : AlarmSchedule_missedDeadlines (block_timestamp alice_settles)
            (schedule (player_at (storage steep) (msg_sender alice_settles))) = Return 2)
    by (vm_compute; reflexivity).
  assert (Hno : AlarmSchedule_missedDeadlines (block_timestamp alice_settles)
            (schedule (player_at (storage steep) (other_player alice_settles (storage steep))))
            = Return 0) by (vm_compute; reflexivity).
  assert (Hover : MAX_UINT < 2 * missedAlarmPenalty (storage steep))
    by (vm_compute; reflexivity).
  split; [exact Hst|]. split; [exact Hns|]. split; [exact Hover|].
  apply (withdraw_locked_by_overflow alice_settles steep 2 0 Hst eq_refl).
  - left. vm_compute. reflexivity.
  - exact Hns.
  - exact Hno.
  - left. exact Hover.
Defined.

(** Bob settling after Alice receives nothing more. *)
Lemma second_withdraw_pays_nothing_witness :
  funded fair /\
  is_player (storage fair) (msg_sender bob_settles) /\
  exists w'' es',
    run (withdraw bob_settles) (fst (result_of (run (withdraw alice_settles) fair)))
      = Return (w'', es') /\
    total_transferred es' = 0 /\
    (forall a, paid_to a es' = 0) /\
    this_balance w'' = 0 /\
    status (storage w'') = CANCELLED.
Proof.
  split; [exact fair_funded|]. split; [exact bob_plays_fair|].
  exact (second_withdraw_pays_nothing alice_settles bob_settles fair _ _
           fair_funded fair_settles eq_refl bob_plays_fair eq_refl eq_refl).
Defined.

(** The commitment as deployed holds Alice's stake and nothing for Bob. *)
Lemma reachable_holdings_witness :
  reachable founded /\
  funded founded /\
  (status (storage founded) = INACTIVE ->
     betAmount (storage founded) = deposit_of founded (player1 (storage founded)) /\
     deposit_of founded (player2 (storage founded)) = 0).
Proof.
  split; [exact founded_reachable|].
  destruct (reachable_holdings founded founded_reachable) as (Hf & Hin & _).
  split; [exact Hf | exact Hin].
Defined.

(** Bob's joining calls the hub once, before the status is ACTIVE. *)
Lemma start_notifies_hub_witness :
  run (start bob_joins) waiting =
    Return (fst (result_of (run (start bob_joins) waiting)),
            snd (result_of (run (start bob_joins) waiting))) /\
  exists seen,
    snd (result_of (run (start bob_joins) waiting))
      = [HubUserJoined (player2 (storage waiting)) seen;
         Emit (CommitmentInitialized "Alarm Bet Started")] /\
    status seen = INACTIVE.
Proof.
  split; [exact bob_joins_returns|].
  destruct (start_notifies_hub bob_joins waiting) as [H _].
  destruct (H _ _ bob_joins_returns) as (_ & seen & Hes & Hst & _).
  exists seen. split; [exact Hes | exact Hst].
Defined.

(** While Bob's account refuses, Alice cannot settle. *)
Lemma refusing_receiver_blocks_settlement_witness :
  accepts_transfer alice_settles_bob_refuses
    (other_player alice_settles_bob_refuses (storage fair)) = false /\
  returns (run (withdraw alice_settles_bob_refuses) fair) = false.
Proof.
  assert (H : accepts_transfer alice_settles_bob_refuses
                (other_player alice_settles_bob_refuses (storage fair)) = false)
    by (vm_compute; reflexivity).
  split; [exact H|].
  apply refusing_receiver_blocks_settlement. right. exact H.
Defined.

End Conducted.

(** * Alice before Bob has joined *)

Section Gated.

Import Scenario.




End Gated.
